(** * Reconciliation and drift suppression in the Turbot Terraform provider

    A shallow embedding of the provider's lifecycle code for resources,
    folders, mods and the control data source, together with the body
    normaliser, the parent-aka resolver, the diff-suppression predicates,
    the version resolver and the installation poller.

    The Go packages the provider builds on (encoding/json,
    Masterminds/semver, the Terraform schema helper and the Turbot api
    client) are not part of the provider's sources.  The provider code is
    embedded over an interface for each of them, and a small executable
    instance of each interface is given so that the code can be run on
    concrete inputs. *)

From stdpp Require Import gmap strings list fin_maps sorting.
From Stdlib Require Import Ascii String ZArith Lia.

Set Warnings "-register-all".
Open Scope string_scope.

(** ** Go values shared by every part of the provider *)

(** A Go [error] value is represented by its message (what [Error()]
    returns); [nil] is the absence of an error. *)
Definition error := string.

(** The pair (value, error) that Go functions return. *)
Inductive result (A : Type) : Type :=
  | Ok (a : A)
  | Err (e : error).
Arguments Ok {A} a.
Arguments Err {A} e.

Definition isOk {A} (r : result A) : bool :=
  match r with Ok _ => true | Err _ => false end.

(** The decoded form of a JSON document: what [json.Unmarshal] stores in
    an [interface{}].  Objects are Go maps, so they carry no member
    order.  Numbers are restricted to integers. *)
Inductive json : Type :=
  | JNull
  | JBool (b : bool)
  | JNumber (n : Z)
  | JString (s : string)
  | JArray (l : list json)
  | JObject (m : gmap string json).

(** The part of encoding/json that the provider calls. *)
Module json.
Record Lib := {
  (* json.Unmarshal(text, &data) with data an empty map[string]interface{} *)
  Unmarshal : string -> result (gmap string json);
  (* json.MarshalIndent(d, prefix, indent) *)
  MarshalIndent : gmap string json -> string -> string -> result string
}.
End json.

(** ** An executable instance of the JSON interface

    It follows encoding/json on the documents it accepts: integer
    numbers below 2^53 in magnitude, strings whose escapes denote ASCII
    characters, arrays, objects, and the three literals. *)
Module GoJson.

Inductive token : Type :=
  | TLBrace | TRBrace | TLBracket | TRBracket | TColon | TComma
  | TString (s : string) | TNumber (n : Z)
  | TTrue | TFalse | TNull.

Definition isDigit (c : ascii) : bool :=
  let n := nat_of_ascii c in (48 <=? n)%nat && (n <=? 57)%nat.

Definition isSpace (c : ascii) : bool :=
  let n := nat_of_ascii c in
  (n =? 32)%nat || (n =? 9)%nat || (n =? 10)%nat || (n =? 13)%nat.

Definition hexValue (c : ascii) : option nat :=
  let n := nat_of_ascii c in
  if (48 <=? n)%nat && (n <=? 57)%nat then Some (n - 48)%nat
  else if (97 <=? n)%nat && (n <=? 102)%nat then Some (n - 87)%nat
  else if (65 <=? n)%nat && (n <=? 70)%nat then Some (n - 55)%nat
  else None.

(** The character denoted by the escape [\c]. *)
Definition unescape (c : ascii) : option ascii :=
  let n := nat_of_ascii c in
  if (n =? 34)%nat then Some (ascii_of_nat 34)       (* quote *)
  else if (n =? 92)%nat then Some (ascii_of_nat 92)  (* backslash *)
  else if (n =? 47)%nat then Some (ascii_of_nat 47)  (* slash *)
  else if (n =? 98)%nat then Some (ascii_of_nat 8)   (* b: backspace *)
  else if (n =? 102)%nat then Some (ascii_of_nat 12) (* f: form feed *)
  else if (n =? 110)%nat then Some (ascii_of_nat 10) (* n: line feed *)
  else if (n =? 114)%nat then Some (ascii_of_nat 13) (* r: carriage return *)
  else if (n =? 116)%nat then Some (ascii_of_nat 9)  (* t: tab *)
  else None.

(** Reads a string literal after its opening quote; [acc] holds the
    characters read so far, last one first. *)
Fixpoint lexString (s : string) (acc : list ascii)
  : option (string * string) :=
  match s with
  | EmptyString => None
  | String c rest =>
      let n := nat_of_ascii c in
      if (n =? 34)%nat then Some (string_of_list_ascii (rev acc), rest)
      else if (n =? 92)%nat then
        match rest with
        | String e rest' =>
            if (nat_of_ascii e =? 117)%nat then
              match rest' with
              | String h1 (String h2 (String h3 (String h4 rest''))) =>
                  match hexValue h1, hexValue h2, hexValue h3, hexValue h4 with
                  | Some 0%nat, Some 0%nat, Some a, Some b =>
                      if (a <? 8)%nat
                      then lexString rest'' (ascii_of_nat (16 * a + b) :: acc)
                      else None
                  | _, _, _, _ => None
                  end
              | _ => None
              end
            else
              match unescape e with
              | Some ch => lexString rest' (ch :: acc)
              | None => None
              end
        | EmptyString => None
        end
      else if (n <? 32)%nat then None
      else lexString rest (c :: acc)
  end.

(** Splits off the leading decimal digits, accumulating their value. *)
Fixpoint lexDigits (s : string) (acc : Z) (count : nat)
  : Z * nat * string :=
  match s with
  | String c rest =>
      if isDigit c
      then lexDigits rest (10 * acc + Z.of_nat (nat_of_ascii c - 48)) (S count)
      else (acc, count, s)
  | EmptyString => (acc, count, s)
  end.

Definition startsFraction (s : string) : bool :=
  match s with
  | String c _ =>
      let n := nat_of_ascii c in
      (n =? 46)%nat || (n =? 101)%nat || (n =? 69)%nat
  | EmptyString => false
  end.

(** An integer literal: no leading zero, no fraction, no exponent,
    magnitude below 2^53. *)
Definition lexNumber (negative : bool) (s : string) : option (Z * string) :=
  match s with
  | String c _ =>
      let '(v, count, rest) := lexDigits s 0 0 in
      if (count =? 0)%nat then None
      else if (nat_of_ascii c =? 48)%nat && (1 <? count)%nat then None
      else if startsFraction rest then None
      else if (9007199254740992 <=? v)%Z then None
      else Some (if negative then (- v)%Z else v, rest)
  | EmptyString => None
  end.

Definition lexWord (w : string) (t : token) (s : string)
  : option (token * string) :=
  if String.prefix w s
  then Some (t, substring (String.length w) (String.length s - String.length w) s)
  else None.

Fixpoint lex (fuel : nat) (s : string) : option (list token) :=
  match fuel with
  | O => None
  | S fuel' =>
      match s with
      | EmptyString => Some []
      | String c rest =>
          let n := nat_of_ascii c in
          let single t := cons t <$> lex fuel' rest in
          if isSpace c then lex fuel' rest
          else if (n =? 123)%nat then single TLBrace
          else if (n =? 125)%nat then single TRBrace
          else if (n =? 91)%nat then single TLBracket
          else if (n =? 93)%nat then single TRBracket
          else if (n =? 58)%nat then single TColon
          else if (n =? 44)%nat then single TComma
          else if (n =? 34)%nat then
            match lexString rest [] with
            | Some (str, rest') => cons (TString str) <$> lex fuel' rest'
            | None => None
            end
          else if (n =? 45)%nat then
            match lexNumber true rest with
            | Some (v, rest') => cons (TNumber v) <$> lex fuel' rest'
            | None => None
            end
          else if isDigit c then
            match lexNumber false s with
            | Some (v, rest') => cons (TNumber v) <$> lex fuel' rest'
            | None => None
            end
          else
            match lexWord "true" TTrue s with
            | Some (t, rest') => cons t <$> lex fuel' rest'
            | None =>
                match lexWord "false" TFalse s with
                | Some (t, rest') => cons t <$> lex fuel' rest'
                | None =>
                    match lexWord "null" TNull s with
                    | Some (t, rest') => cons t <$> lex fuel' rest'
                    | None => None
                    end
                end
            end
      end
  end.

(** Recursive descent over the tokens.  A repeated member name
    overwrites the earlier one, as assignment into a Go map does. *)
Fixpoint parseValue (fuel : nat) (ts : list token)
  : option (json * list token) :=
  match fuel with
  | O => None
  | S fuel' =>
      match ts with
      | TNull :: ts' => Some (JNull, ts')
      | TTrue :: ts' => Some (JBool true, ts')
      | TFalse :: ts' => Some (JBool false, ts')
      | TNumber n :: ts' => Some (JNumber n, ts')
      | TString s :: ts' => Some (JString s, ts')
      | TLBracket :: TRBracket :: ts' => Some (JArray [], ts')
      | TLBracket :: ts' =>
          match parseElements fuel' fuel' ts' with
          | Some (l, ts'') => Some (JArray l, ts'')
          | None => None
          end
      | TLBrace :: TRBrace :: ts' => Some (JObject ∅, ts')
      | TLBrace :: ts' =>
          match parseMembers fuel' fuel' ts' ∅ with
          | Some (m, ts'') => Some (JObject m, ts'')
          | None => None
          end
      | _ => None
      end
  end
with parseElements (fuel count : nat) (ts : list token)
  : option (list json * list token) :=
  match fuel with
  | O => None
  | S fuel' =>
      match parseValue fuel' ts with
      | Some (v, TComma :: ts') =>
          match parseElements fuel' count ts' with
          | Some (l, ts'') => Some (v :: l, ts'')
          | None => None
          end
      | Some (v, TRBracket :: ts') => Some ([v], ts')
      | _ => None
      end
  end
with parseMembers (fuel count : nat) (ts : list token) (m : gmap string json)
  : option (gmap string json * list token) :=
  match fuel with
  | O => None
  | S fuel' =>
      match ts with
      | TString k :: TColon :: ts' =>
          match parseValue fuel' ts' with
          | Some (v, TComma :: ts'') =>
              parseMembers fuel' count ts'' (<[k := v]> m)
          | Some (v, TRBrace :: ts'') => Some (<[k := v]> m, ts'')
          | _ => None
          end
      | _ => None
      end
  end.

Definition parse (text : string) : option json :=
  match lex (S (String.length text)) text with
  | Some ts =>
      match parseValue (S (List.length ts)) ts with
      | Some (v, []) => Some v
      | _ => None
      end
  | None => None
  end.

(** Decoding into an empty [map[string]interface{}]: an object fills
    the map, [null] leaves it empty, anything else is an error. *)
Definition Unmarshal (text : string) : result (gmap string json) :=
  match parse text with
  | Some (JObject m) => Ok m
  | Some JNull => Ok ∅
  | Some _ => Err "json: cannot unmarshal value into Go value of type map[string]interface {}"
  | None => Err "invalid character in JSON input"
  end.

(** *** Encoding *)

Definition quote : string := String (ascii_of_nat 34) "".
Definition newline : string := String (ascii_of_nat 10) "".

Definition hexDigit (n : nat) : ascii :=
  if (n <? 10)%nat then ascii_of_nat (48 + n) else ascii_of_nat (87 + n).

(** One character of a string literal.  The encoder escapes the quote,
    the backslash, the control characters and, as it is HTML-safe by
    default, the characters <, > and &. *)
Definition encodeChar (c : ascii) : string :=
  let n := nat_of_ascii c in
  let backslash := String (ascii_of_nat 92) "" in
  if (n =? 34)%nat || (n =? 92)%nat then backslash ++ String c ""
  else if (n =? 10)%nat then backslash ++ "n"
  else if (n =? 13)%nat then backslash ++ "r"
  else if (n =? 9)%nat then backslash ++ "t"
  else if (n <? 32)%nat || (n =? 60)%nat || (n =? 62)%nat || (n =? 38)%nat then
    backslash ++ "u00"
      ++ String (hexDigit (n / 16)) (String (hexDigit (n mod 16)) "")
  else String c "".

Fixpoint encodeChars (s : string) : string :=
  match s with
  | EmptyString => ""
  | String c rest => encodeChar c ++ encodeChars rest
  end.

Definition encodeString (s : string) : string :=
  quote ++ encodeChars s ++ quote.

Fixpoint digitsOf (fuel : nat) (n : N) (acc : string) : string :=
  match fuel with
  | O => acc
  | S fuel' =>
      let acc' := String (ascii_of_N (48 + n mod 10)) acc in
      if (n <? 10)%N then acc' else digitsOf fuel' (n / 10) acc'
  end.

Definition encodeNumber (z : Z) : string :=
  let digits := digitsOf (S (N.to_nat (N.log2 (Z.abs_N z)))) (Z.abs_N z) "" in
  if (z <? 0)%Z then "-" ++ digits else digits.

Fixpoint indentation (indent : string) (depth : nat) : string :=
  match depth with
  | O => ""
  | S d => indent ++ indentation indent d
  end.

(** A line break followed by the prefix and [depth] copies of the
    indent. *)
Definition breakLine (prefix indent : string) (depth : nat) : string :=
  newline ++ prefix ++ indentation indent depth.

Fixpoint joinWith (sep : string) (items : list string) : string :=
  match items with
  | [] => ""
  | [x] => x
  | x :: rest => x ++ sep ++ joinWith sep rest
  end.

Definition keyLe (x y : string * string) : Prop := String.leb x.1 y.1.

#[local] Instance keyLe_dec x y : Decision (keyLe x y).
Proof. unfold keyLe. apply _. Defined.

(** Members are written in the order of their names, compared byte by
    byte. *)
Definition sortedMembers (m : gmap string string) : list (string * string) :=
  merge_sort keyLe (map_to_list m).

Fixpoint encodeValue (prefix indent : string) (depth : nat) (v : json)
  : string :=
  match v with
  | JNull => "null"
  | JBool true => "true"
  | JBool false => "false"
  | JNumber n => encodeNumber n
  | JString s => encodeString s
  | JArray l =>
      match l with
      | [] => "[]"
      | _ =>
          "[" ++ breakLine prefix indent (S depth)
            ++ joinWith ("," ++ breakLine prefix indent (S depth))
                 (map (encodeValue prefix indent (S depth)) l)
            ++ breakLine prefix indent depth ++ "]"
      end
  | JObject m =>
      let members := sortedMembers (encodeValue prefix indent (S depth) <$> m) in
      match members with
      | [] => "{}"
      | _ =>
          "{" ++ breakLine prefix indent (S depth)
            ++ joinWith ("," ++ breakLine prefix indent (S depth))
                 (map (fun kv => encodeString kv.1 ++ ": " ++ kv.2) members)
            ++ breakLine prefix indent depth ++ "}"
      end
  end.

(** Every value of type [json] can be encoded, so no error arises. *)
Definition MarshalIndent (d : gmap string json) (prefix indent : string)
  : result string :=
  Ok (encodeValue prefix indent 0 (JObject d)).

Definition lib : json.Lib :=
  json.Build_Lib Unmarshal MarshalIndent.

(** Test documents are written with apostrophes in place of the
    double quotes. *)
Definition js (s : string) : string :=
  string_of_list_ascii
    (map (fun c => if (nat_of_ascii c =? 39)%nat then ascii_of_nat 34 else c)
         (list_ascii_of_string s)).

End GoJson.

(** ** Semantic versions

    The part of Masterminds/semver that the provider calls, with the
    comparison of versions that the library defines. *)
Module semver.
Record Lib := {
  Constraints : Type;
  Version : Type;
  NewConstraint : string -> result Constraints;
  NewVersion : string -> result Version;
  (* c.Check(v) *)
  Check : Constraints -> Version -> bool;
  (* v.Compare(o): Lt, Eq, Gt for -1, 0, 1 *)
  Compare : Version -> Version -> comparison
}.
End semver.

(** An executable instance on plain versions: one to three numeric
    components with an optional leading v, and constraints made of the
    wildcard or of one operator applied to such a version. *)
Module GoSemver.

Record version := { major : N; minor : N; patch : N }.

Inductive operator := OpEq | OpNe | OpGt | OpGe | OpLt | OpLe | OpCaret.

Inductive constraints :=
  | Wildcard
  | Compared (op : operator) (v : version).

Fixpoint parseDigits (s : string) (acc : N) : option N :=
  match s with
  | EmptyString => Some acc
  | String c rest =>
      if GoJson.isDigit c
      then parseDigits rest (10 * acc + N.of_nat (nat_of_ascii c - 48))
      else None
  end.

Definition parseNumber (s : string) : option N :=
  match s with
  | EmptyString => None
  | _ => parseDigits s 0
  end.

(** The components between dots; [cur] holds the characters of the
    current component, last one first. *)
Fixpoint splitDots (s : string) (cur : list ascii) : list string :=
  match s with
  | EmptyString => [string_of_list_ascii (rev cur)]
  | String c rest =>
      if (nat_of_ascii c =? 46)%nat
      then string_of_list_ascii (rev cur) :: splitDots rest []
      else splitDots rest (c :: cur)
  end.

Definition stripV (s : string) : string :=
  match s with
  | String c rest => if (nat_of_ascii c =? 118)%nat then rest else s
  | EmptyString => s
  end.

Definition parseVersion (s : string) : option version :=
  match parseNumber <$> splitDots (stripV s) [] with
  | [Some a] => Some {| major := a; minor := 0; patch := 0 |}
  | [Some a; Some b] => Some {| major := a; minor := b; patch := 0 |}
  | [Some a; Some b; Some c] => Some {| major := a; minor := b; patch := c |}
  | _ => None
  end.

Definition NewVersion (s : string) : result version :=
  match parseVersion s with
  | Some v => Ok v
  | None => Err "Invalid Semantic Version"
  end.

(** Major, then minor, then patch. *)
Definition Compare (v o : version) : comparison :=
  match (major v ?= major o)%N with
  | Eq =>
      match (minor v ?= minor o)%N with
      | Eq => (patch v ?= patch o)%N
      | c => c
      end
  | c => c
  end.

Definition splitOperator (s : string) : operator * string :=
  if String.prefix ">=" s then (OpGe, substring 2 (String.length s - 2) s)
  else if String.prefix "<=" s then (OpLe, substring 2 (String.length s - 2) s)
  else if String.prefix "!=" s then (OpNe, substring 2 (String.length s - 2) s)
  else if String.prefix ">" s then (OpGt, substring 1 (String.length s - 1) s)
  else if String.prefix "<" s then (OpLt, substring 1 (String.length s - 1) s)
  else if String.prefix "=" s then (OpEq, substring 1 (String.length s - 1) s)
  else if String.prefix "^" s then (OpCaret, substring 1 (String.length s - 1) s)
  else (OpEq, s).

Definition NewConstraint (s : string) : result constraints :=
  if String.eqb s "*" then Ok Wildcard
  else
    let '(op, rest) := splitOperator s in
    match parseVersion rest with
    | Some v => Ok (Compared op v)
    | None => Err "improper constraint"
    end.

Definition Check (c : constraints) (v : version) : bool :=
  match c with
  | Wildcard => true
  | Compared op o =>
      match op, Compare v o with
      | OpEq, Eq => true
      | OpNe, (Lt | Gt) => true
      | OpGt, Gt => true
      | OpGe, (Gt | Eq) => true
      | OpLt, Lt => true
      | OpLe, (Lt | Eq) => true
      | OpCaret, (Gt | Eq) => (major v =? major o)%N && (0 <? major o)%N
      | _, _ => false
      end
  end.

Definition lib : semver.Lib :=
  semver.Build_Lib constraints version NewConstraint NewVersion Check Compare.

End GoSemver.

(** ** The Terraform schema helper

    [ResourceData] is the local state of one entity: its id and the
    values of its schema fields. *)
Module schema.

Inductive value : Type :=
  | VString (s : string)
  | VList (l : list string)
  | VMap (m : gmap string string).

Record ResourceData := {
  id : string;
  fields : gmap string value
}.

Definition Id (d : ResourceData) : string := id d.

Definition SetId (v : string) (d : ResourceData) : ResourceData :=
  {| id := v; fields := fields d |}.

Definition Set_ (key : string) (v : value) (d : ResourceData) : ResourceData :=
  {| id := id d; fields := <[key := v]> (fields d) |}.

(** The zero value of a field type: the empty string, list or map. *)
Definition isZero (v : value) : bool :=
  match v with
  | VString s => bool_decide (s = "")
  | VList l => bool_decide (l = [])
  | VMap m => bool_decide (m = ∅)
  end.

(** [d.Get(key).(string)]: a string field that was never set reads as
    the empty string. *)
Definition GetString (key : string) (d : ResourceData) : string :=
  match fields d !! key with
  | Some (VString s) => s
  | _ => ""
  end.

(** [d.GetOk(key)]: the value, and whether it is set to something other
    than its zero value. *)
Definition GetOk (key : string) (d : ResourceData) : option value * bool :=
  match fields d !! key with
  | Some v => (Some v, negb (isZero v))
  | None => (None, false)
  end.

(** A slice of strings stored in a list field; the nil slice is stored
    as the empty list. *)
Definition ofSlice (s : option (list string)) : value :=
  VList (default [] s).

End schema.

(** ** The Turbot api client

    The remote side is a state of type [W]; every client method reads
    and may change it. *)
Module apiclient.

(** A slice is [None] when it is nil. *)
Record TurbotMetadata := {
  Id : string;
  ParentId : string;
  Akas : option (list string)
}.

Record Resource := {
  Turbot : TurbotMetadata;
  Data : gmap string json
}.

Record Folder := {
  FolderTurbot : TurbotMetadata;
  FolderParent : string;
  Title : string;
  Description : string
}.

Record Mod := {
  Parent : string;
  Org : string;
  ModName : string;
  ModVersion : string
}.

Record InstalledMod := {
  ModTurbot : TurbotMetadata
}.

Record ModVersions := {
  Status : string;
  Version : string
}.

Record Control := {
  ControlTurbot : gmap string string;
  TypeUri : string;
  State : string;
  Reason : string;
  Details : string
}.

Record Client (W : Type) := {
  ReadResource :
    string -> option (gmap string string) -> W -> result Resource * W;
  ReadFolder : string -> W -> result Folder * W;
  GetResourceAkas : string -> W -> result (option (list string)) * W;
  ReadMod : string -> W -> result Mod * W;
  GetModVersions : string -> string -> W -> result (list ModVersions) * W;
  InstallMod :
    string -> string -> string -> string -> W -> result InstalledMod * W;
  ReadControl : string -> W -> result Control * W;
  (* apiclient.NotFoundError(err) *)
  NotFoundError : error -> bool;
  (* what happens remotely while the provider sleeps *)
  Elapse : Z -> W -> W
}.
Arguments ReadResource {W}.
Arguments ReadFolder {W}.
Arguments GetResourceAkas {W}.
Arguments ReadMod {W}.
Arguments GetModVersions {W}.
Arguments InstallMod {W}.
Arguments ReadControl {W}.
Arguments NotFoundError {W}.
Arguments Elapse {W}.

End apiclient.

(** ** Running provider code

    A provider function runs against the local [ResourceData] it was
    handed, the remote side, and a record of the client calls and sleeps
    made so far.  It either returns or panics. *)
Inductive Event : Type :=
  | Called (method : string) (target : string)
  | Slept (duration : Z).

Record Machine (W : Type) := {
  data : schema.ResourceData;
  remote : W;
  events : list Event
}.
Arguments data {W}.
Arguments remote {W}.
Arguments events {W}.

Inductive completion (A : Type) : Type :=
  | Returns (a : A)
  | Panics (msg : string).
Arguments Returns {A} a.
Arguments Panics {A} msg.

Definition Go (W A : Type) : Type := Machine W -> completion A * Machine W.

Definition ret {W A} (a : A) : Go W A := fun m => (Returns a, m).

Definition bind {W A B} (c : Go W A) (k : A -> Go W B) : Go W B :=
  fun m =>
    match c m with
    | (Returns a, m') => k a m'
    | (Panics msg, m') => (Panics msg, m')
    end.

Definition panic {W A} (msg : string) : Go W A := fun m => (Panics msg, m).

Notation "x <- c ;; k" := (bind c (fun x => k))
  (at level 100, c at next level, right associativity).
Notation "c ;; k" := (bind c (fun _ => k))
  (at level 100, right associativity).

(** Reading and writing the local state. *)
Definition getData {W} : Go W schema.ResourceData :=
  fun m => (Returns (data m), m).

Definition setData {W} (f : schema.ResourceData -> schema.ResourceData)
  : Go W unit :=
  fun m => (Returns tt,
            {| data := f (data m); remote := remote m; events := events m |}).

Definition dId {W} : Go W string := d <- getData ;; ret (schema.Id d).
Definition dGet {W} (key : string) : Go W string :=
  d <- getData ;; ret (schema.GetString key d).
Definition dSetId {W} (v : string) : Go W unit := setData (schema.SetId v).
Definition dSet {W} (key : string) (v : schema.value) : Go W unit :=
  setData (schema.Set_ key v).

(** A client call: recorded, then run on the remote side. *)
Definition call {W A} (method target : string) (op : W -> result A * W)
  : Go W (result A) :=
  fun m =>
    let '(r, w) := op (remote m) in
    (Returns r,
     {| data := data m; remote := w;
        events := events m ++ [Called method target] |}).

(** [time.Sleep]; durations are in nanoseconds. *)
Definition Second : Z := 1000000000.

Definition Sleep {W} (c : apiclient.Client W) (duration : Z) : Go W unit :=
  fun m =>
    (Returns tt,
     {| data := data m; remote := apiclient.Elapse c duration (remote m);
        events := events m ++ [Slept duration] |}).

(** ** The resource controller and the body normaliser *)
Section Provider.

Context {W : Type}.
Variable J : json.Lib.
Variable client : apiclient.Client W.

(** Loads the parent to record its akas in [parent_akas]. *)
Definition setParentAkas (parentId : string) : Go W (result unit) :=
  r <- call "ReadResource" parentId
         (apiclient.ReadResource client parentId None) ;;
  match r with
  | Err err => ret (Err err)
  | Ok parent =>
      let parentAkas := apiclient.Akas (apiclient.Turbot parent) in
      (* if this resource has no akas, just use the id *)
      let parentAkas :=
        match parentAkas with
        | None => Some [parentId]
        | Some akas => Some akas
        end in
      (* assign parent_akas *)
      dSet "parent_akas"
        (schema.ofSlice (apiclient.Akas (apiclient.Turbot parent))) ;;
      ret (Ok tt)
  end.

(** The loop over [parentAkas] that answers at the first aka equal to
    [new]. *)
Fixpoint akaMatches (parentAkas : list string) (new : string) : bool :=
  match parentAkas with
  | [] => false
  | aka :: rest => if String.eqb aka new then true else akaMatches rest new
  end.

Definition supressIfParentAkaMatches (k old new : string)
    (d : schema.ResourceData) : bool :=
  let '(parentAkasProperty, parentAkasSet) := schema.GetOk "parent_akas" d in
  (* if parent_id has not been set yet, do not suppress the diff *)
  if negb parentAkasSet then false
  else
    match parentAkasProperty with
    | Some (schema.VList parentAkas) => akaMatches parentAkas new
    | _ => false
    end.

Definition suppressIfClientSecret (k old new : string)
    (d : schema.ResourceData) : bool :=
  negb (String.eqb old "").

(** The loop [for k := range data { properties[k] = k }]. *)
Definition propertiesFromBody (body : string) : result (gmap string string) :=
  match json.Unmarshal J body with
  | Err err => Err err
  | Ok data =>
      Ok (map_fold (fun k _ (properties : gmap string string) =>
                      <[k := k]> properties) ∅ data)
  end.

Definition bodyFromProperties (d : gmap string json) : result string :=
  match json.MarshalIndent J d "" " " with
  | Err err => Err err
  | Ok body => Ok body
  end.

(** When the encoding fails, [body] has already been overwritten by
    the empty string that [bodyFromProperties] returns next to its
    error. *)
Definition formatBody (body : string) : string :=
  match json.Unmarshal J body with
  | Err _ => body
  | Ok data =>
      match bodyFromProperties data with
      | Err _ => ""
      | Ok body => body
      end
  end.

Definition suppressIfBodyMatches (k old new : string)
    (d : schema.ResourceData) : bool :=
  if String.eqb old "" || String.eqb new "" then false
  else String.eqb (formatBody old) (formatBody new).

Definition resourceTurbotResourceRead : Go W (result unit) :=
  id <- dId ;;
  (* build required properties from body *)
  body <- dGet "body" ;;
  match propertiesFromBody body with
  | Err err =>
      ret (Err ("error retrieving properties from resource body: " ++ err))
  | Ok properties =>
      r <- call "ReadResource" id
             (apiclient.ReadResource client id (Some properties)) ;;
      match r with
      | Err err =>
          (if apiclient.NotFoundError client err
           then dSetId ""   (* resource was not found - clear id *)
           else ret tt) ;;
          ret (Err err)
      | Ok resource =>
          (* rebuild body from the resource *)
          match bodyFromProperties (apiclient.Data resource) with
          | Err err => ret (Err ("error building resource body: " ++ err))
          | Ok body =>
              r <- setParentAkas
                     (apiclient.ParentId (apiclient.Turbot resource)) ;;
              match r with
              | Err err => ret (Err err)
              | Ok _ =>
                  dSet "parent"
                    (schema.VString
                       (apiclient.ParentId (apiclient.Turbot resource))) ;;
                  dSet "body" (schema.VString body) ;;
                  ret (Ok tt)
              end
          end
      end
  end.

(** ** The folder controller *)
Definition resourceTurbotFolderRead : Go W (result unit) :=
  id <- dId ;;
  r <- call "ReadFolder" id (apiclient.ReadFolder client id) ;;
  match r with
  | Err err =>
      (if apiclient.NotFoundError client err
       then dSetId ""   (* folder was not found - clear id *)
       else ret tt) ;;
      ret (Err err)
  | Ok folder =>
      let parentId := apiclient.ParentId (apiclient.FolderTurbot folder) in
      r <- call "GetResourceAkas" parentId
             (apiclient.GetResourceAkas client parentId) ;;
      match r with
      | Err err => ret (Err err)
      | Ok parentAkas =>
          dSet "parent_akas" (schema.ofSlice parentAkas) ;;
          dSet "parent" (schema.VString (apiclient.FolderParent folder)) ;;
          dSet "title" (schema.VString (apiclient.Title folder)) ;;
          dSet "description" (schema.VString (apiclient.Description folder)) ;;
          ret (Ok tt)
      end
  end.

(** ** The control data source *)
Definition dataSourceTurbotControlRead : Go W (result unit) :=
  controlId <- dGet "id" ;;
  controlUri <- dGet "uri" ;;
  resourceId <- dGet "uri" ;;
  let args :=
    if negb (String.eqb controlUri "") && negb (String.eqb resourceId "")
    then "uri: " ++ controlUri ++ ", resourceId: " ++ resourceId
    else "id: " ++ controlId in
  r <- call "ReadControl" args (apiclient.ReadControl client args) ;;
  match r with
  | Err err =>
      (if apiclient.NotFoundError client err
       then dSetId ""   (* setting was not found - clear id *)
       else ret tt) ;;
      ret (Err err)
  | Ok control =>
      let turbot := apiclient.ControlTurbot control in
      dSetId (default "" (turbot !! "id")) ;;
      dSet "uri" (schema.VString (apiclient.TypeUri control)) ;;
      dSet "resource" (schema.VString (default "" (turbot !! "resourceId"))) ;;
      dSet "state" (schema.VString (apiclient.State control)) ;;
      dSet "reason" (schema.VString (apiclient.Reason control)) ;;
      dSet "details" (schema.VString (apiclient.Details control)) ;;
      dSet "turbot" (schema.VMap turbot) ;;
      ret (Ok tt)
  end.

End Provider.

(** ** The mod controller: version resolution and the installation poll *)
Section ResourceTurbotMod.

Context {W : Type}.
Variable sv : semver.Lib.
Variable client : apiclient.Client W.

(** The mod controller calls a two-argument [setParentAkas(d, meta)],
    which is not the three-argument function of the resource
    controller; it is kept as a parameter of the mod controller. *)
Variable setParentAkas : Go W (result unit).

Definition getInstalledModVersion (modId : string) : Go W (result string) :=
  let properties : gmap string string :=
    {[ "version" := "turbot.custom.installedVersion" ]} in
  r <- call "ReadResource" modId
         (apiclient.ReadResource client modId (Some properties)) ;;
  match r with
  | Err err => ret (Err err)
  | Ok resource =>
      match apiclient.Data resource !! "version" with
      | None | Some JNull => ret (Ok "")
      | Some (JString version) => ret (Ok version)
      | Some _ => panic "interface conversion: interface {} is not string"
      end
  end.

Definition timedOut : error := "Turbot mod installation timed out".

(** The loop [for retryCount < maxRetries { ...; retryCount++ }]: it
    has [maxRetries - retryCount] rounds left, the number [remaining]
    the recursion descends on. *)
Fixpoint waitForInstallation_loop (remaining : nat) (retryCount sleep : Z)
    (modId targetVersion : string) : Go W (result unit) :=
  match remaining with
  | O => ret (Err timedOut)
  | S remaining' =>
      r <- getInstalledModVersion modId ;;
      match r with
      | Err err => ret (Err err)
      | Ok installedVersion =>
          if String.eqb installedVersion targetVersion
          then ret (Ok tt)   (* success *)
          else
            Sleep client sleep ;;
            waitForInstallation_loop remaining' (retryCount + 1) sleep
              modId targetVersion
      end
  end.

Definition waitForInstallation (modId targetVersion : string)
  : Go W (result unit) :=
  let retryCount := 0%Z in
  (* retry for 15 minutes *)
  let maxRetries := 40%Z in
  let sleep := (20 * Second)%Z in
  waitForInstallation_loop (Z.to_nat (maxRetries - retryCount)) retryCount
    sleep modId targetVersion.

(** The loop over [modVersions]; [latestCompatibleVersion] is the
    value held when the entry is reached. *)
Fixpoint latestCompatibleAmong (c : semver.Constraints sv)
    (modVersions : list apiclient.ModVersions)
    (latestCompatibleVersion : string) : result string :=
  match modVersions with
  | [] => Ok latestCompatibleVersion
  | modVersion :: rest =>
      if String.eqb (apiclient.Status modVersion) "available" then
        match semver.NewVersion sv (apiclient.Version modVersion) with
        | Err err => Err err
        | Ok v =>
            (* does this version meet the requirement *)
            if semver.Check sv c v
            then latestCompatibleAmong c rest (apiclient.Version modVersion)
            else latestCompatibleAmong c rest latestCompatibleVersion
        end
      else latestCompatibleAmong c rest latestCompatibleVersion
  end.

Definition getLatestCompatibleVersion : Go W (result string) :=
  org <- dGet "org" ;;
  modName <- dGet "mod" ;;
  version <- dGet "version" ;;
  r <- call "GetModVersions" modName
         (apiclient.GetModVersions client org modName) ;;
  match r with
  | Err err => ret (Err err)
  | Ok modVersions =>
      match semver.NewConstraint sv version with
      | Err err => ret (Err err)
      | Ok c =>
          (* now get latest version *)
          ret (latestCompatibleAmong c modVersions "")
      end
  end.

(** do the actual mod installation *)
Definition modInstall : Go W (result unit) :=
  parentAka <- dGet "parent" ;;
  org <- dGet "org" ;;
  modName <- dGet "mod" ;;
  version <- dGet "version" ;;
  (* now determine latest compatible version *)
  r <- getLatestCompatibleVersion ;;
  match r with
  | Err err => ret (Err err)
  | Ok targetVersion =>
      r <- call "InstallMod" modName
             (apiclient.InstallMod client parentAka org modName version) ;;
      match r with
      | Err err => ret (Err err)
      | Ok mod_ =>
          let modId := apiclient.Id (apiclient.ModTurbot mod_) in
          (* now poll the mod resource to wait for the correct version;
             the error it returns is not looked at *)
          waitForInstallation modId targetVersion ;;
          r <- setParentAkas ;;
          match r with
          | Err err => ret (Err err)
          | Ok _ =>
              dSetId modId ;;
              dSet "latest_compatible_version" (schema.VString targetVersion) ;;
              ret (Ok tt)
          end
      end
  end.

Definition resourceTurbotModInstall : Go W (result unit) := modInstall.
Definition resourceTurbotModUpdate : Go W (result unit) := modInstall.

Definition resourceTurbotModRead : Go W (result unit) :=
  id <- dId ;;
  r <- call "ReadMod" id (apiclient.ReadMod client id) ;;
  match r with
  | Err err =>
      (if apiclient.NotFoundError client err
       then dSetId ""   (* mod was not found - clear id *)
       else ret tt) ;;
      ret (Err err)
  | Ok mod_ =>
      (* now determine latest compatible version *)
      r <- getLatestCompatibleVersion ;;
      match r with
      | Err err => ret (Err err)
      | Ok targetVersion =>
          r <- setParentAkas ;;
          match r with
          | Err err => ret (Err err)
          | Ok _ =>
              dSet "parent" (schema.VString (apiclient.Parent mod_)) ;;
              dSet "org" (schema.VString (apiclient.Org mod_)) ;;
              dSet "mod" (schema.VString (apiclient.ModName mod_)) ;;
              dSet "version" (schema.VString (apiclient.ModVersion mod_)) ;;
              dSet "latest_compatible_version" (schema.VString targetVersion) ;;
              ret (Ok tt)
          end
      end
  end.

(** The comparison with [latest_compatible_version] is commented out
    in the source. *)
Definition supressIfLatestCompatibleVersionInstalled (k old new : string)
    (d : schema.ResourceData) : bool :=
  false.

End ResourceTurbotMod.

(** ** A remote side to run the provider against

    An in-memory server: resources and folders by id, the published
    versions of the one mod it knows, and controls by selector.  Reading
    an id it does not hold fails with the not-found error.  Installing
    the mod creates its resource with the version it reports as
    installed, which never changes afterwards. *)
Module Server.

Record state := {
  resources : gmap string apiclient.Resource;
  folders : gmap string apiclient.Folder;
  versions : list apiclient.ModVersions;
  controls : gmap string apiclient.Control;
  reportedVersion : json
}.

Definition notFound : error := "Not Found".

Definition lookup {A} (m : gmap string A) (key : string) (w : state)
  : result A * state :=
  match m !! key with
  | Some a => (Ok a, w)
  | None => (Err notFound, w)
  end.

Definition modId : string := "mod-1".

Definition install (parentAka : string) (w : state)
  : result apiclient.InstalledMod * state :=
  let turbot :=
    {| apiclient.Id := modId; apiclient.ParentId := parentAka;
       apiclient.Akas := None |} in
  let resource :=
    {| apiclient.Turbot := turbot;
       apiclient.Data := {[ "version" := reportedVersion w ]} |} in
  (Ok {| apiclient.ModTurbot := turbot |},
   {| resources := <[modId := resource]> (resources w);
      folders := folders w; versions := versions w;
      controls := controls w; reportedVersion := reportedVersion w |}).

Definition client : apiclient.Client state :=
  {| apiclient.ReadResource := fun id _ w => lookup (resources w) id w;
     apiclient.ReadFolder := fun id w => lookup (folders w) id w;
     apiclient.GetResourceAkas := fun id w =>
       match resources w !! id with
       | Some r => (Ok (apiclient.Akas (apiclient.Turbot r)), w)
       | None => (Err notFound, w)
       end;
     apiclient.ReadMod := fun _ w => (Err notFound, w);
     apiclient.GetModVersions := fun _ _ w => (Ok (versions w), w);
     apiclient.InstallMod := fun parentAka _ _ _ w => install parentAka w;
     apiclient.ReadControl := fun args w => lookup (controls w) args w;
     apiclient.NotFoundError := fun err => String.eqb err notFound;
     apiclient.Elapse := fun _ w => w |}.

Definition empty : state :=
  {| resources := ∅; folders := ∅; versions := []; controls := ∅;
     reportedVersion := JNull |}.

Definition resource (id parentId : string) (akas : option (list string))
    (body : gmap string json) : apiclient.Resource :=
  {| apiclient.Turbot :=
       {| apiclient.Id := id; apiclient.ParentId := parentId;
          apiclient.Akas := akas |};
     apiclient.Data := body |}.

Definition withResources (rs : list (string * apiclient.Resource))
    (w : state) : state :=
  {| resources := list_to_map rs; folders := folders w;
     versions := versions w; controls := controls w;
     reportedVersion := reportedVersion w |}.

Definition withVersions (vs : list (string * string)) (reported : string)
    (w : state) : state :=
  {| resources := resources w; folders := folders w;
     versions :=
       map (fun v => {| apiclient.Version := v.1; apiclient.Status := v.2 |}) vs;
     controls := controls w; reportedVersion := JString reported |}.

(** Modelled from the spec: the two-argument [setParentAkas] of the mod
    controller is missing from the sources; section 4.2 has it fetch
    the parent and persist its alias list into [parent_akas]. *)
Definition setParentAkasOfMod : Go state (result unit) :=
  parent <- dGet "parent" ;;
  setParentAkas client parent.

(** A machine that has made no call yet. *)
Definition start (id : string) (fs : list (string * schema.value))
    (w : state) : Machine state :=
  {| data := {| schema.id := id; schema.fields := list_to_map fs |};
     remote := w; events := [] |}.

End Server.

(** A remote side that never changes: every resource read reports the
    same installed version, and nothing else is known to it. *)
Module Frozen.

Definition unknown {A} : unit -> result A * unit :=
  fun w => (Err Server.notFound, w).

Definition client (reported : string) : apiclient.Client unit :=
  {| apiclient.ReadResource := fun id _ w =>
       (Ok (Server.resource id "" None {[ "version" := JString reported ]}), w);
     apiclient.ReadFolder := fun _ => unknown;
     apiclient.GetResourceAkas := fun _ => unknown;
     apiclient.ReadMod := fun _ => unknown;
     apiclient.GetModVersions := fun _ _ => unknown;
     apiclient.InstallMod := fun _ _ _ _ => unknown;
     apiclient.ReadControl := fun _ => unknown;
     apiclient.NotFoundError := fun err => String.eqb err Server.notFound;
     apiclient.Elapse := fun _ w => w |}.

Definition start : Machine unit :=
  {| data := {| schema.id := ""; schema.fields := ∅ |};
     remote := tt; events := [] |}.

End Frozen.

(** ** Statements about bodies *)
Section BodyDocuments.

Variable J : json.Lib.

(** The composition the specification calls the round trip of a body:
    the property map, an identity map on strings, is handed to
    [bodyFromProperties] with its values as JSON strings. *)
Definition roundTrip (x : string) : result string :=
  match propertiesFromBody J (formatBody J x) with
  | Err err => Err err
  | Ok properties => bodyFromProperties J (JString <$> properties)
  end.

(** Structural equality of two documents: they decode to the same
    object. *)
Definition sameDocument (x y : string) : Prop :=
  exists data : gmap string json,
    json.Unmarshal J x = Ok data /\ json.Unmarshal J y = Ok data.

(** The object that maps every key of [data] to its own name. *)
Definition keysAsValues (data : gmap string json) : gmap string json :=
  map_imap (fun k _ => Some (JString k)) data.

End BodyDocuments.

(** ** Statements about version resolution *)
Section TakenEntries.

Variable sv : semver.Lib.

(** An entry the loop takes: available, and its version satisfies the
    constraint. *)
Definition taken (c : semver.Constraints sv) (entry : apiclient.ModVersions)
  : bool :=
  String.eqb (apiclient.Status entry) "available"
  && match semver.NewVersion sv (apiclient.Version entry) with
     | Ok v => semver.Check sv c v
     | Err _ => false
     end.

End TakenEntries.

(** The resolver run against the in-memory server that publishes the
    given versions. *)
Definition resolve (constraint : string) (published : list (string * string))
  : completion (result string) :=
  (getLatestCompatibleVersion GoSemver.lib Server.client
     (Server.start ""
        [("org", schema.VString "turbot"); ("mod", schema.VString "aws");
         ("version", schema.VString constraint)]
        (Server.withVersions published "" Server.empty))).1.

(** ** Statements about the record of calls and sleeps *)

(** One round of the installation poll: the read of the mod resource,
    then the sleep. *)
Definition pollRound (modId : string) (sleep : Z) : list Event :=
  [Called "ReadResource" modId; Slept sleep].

Fixpoint pollRounds (n : nat) (modId : string) (sleep : Z) : list Event :=
  match n with
  | O => []
  | S n' => (pollRound modId sleep ++ pollRounds n' modId sleep)%list
  end.

(** The number of client calls, and the time slept, in a record. *)
Fixpoint calls (es : list Event) : nat :=
  match es with
  | [] => 0
  | Called _ _ :: rest => S (calls rest)
  | Slept _ :: rest => calls rest
  end.

Fixpoint timeSlept (es : list Event) : Z :=
  match es with
  | [] => 0
  | Called _ _ :: rest => timeSlept rest
  | Slept duration :: rest => duration + timeSlept rest
  end.

(** ** The rest of the lifecycle

    The client methods that create, change and delete entities, and the
    controllers built on them. *)
Module lifecycle.

Record Client (W : Type) := {
  ResourceExists : string -> W -> result bool * W;
  (* CreateResource(resourceType, parent, body) *)
  CreateResource :
    string -> string -> string -> W -> result apiclient.TurbotMetadata * W;
  (* UpdateResource(id, resourceType, parent, body) *)
  UpdateResource :
    string -> string -> string -> string -> W
    -> result apiclient.TurbotMetadata * W;
  DeleteResource : string -> W -> result unit * W;
  (* CreateFolder(parentAka, data) *)
  CreateFolder :
    string -> gmap string schema.value -> W
    -> result apiclient.TurbotMetadata * W;
  (* UpdateFolder(id, parentAka, data) *)
  UpdateFolder :
    string -> string -> gmap string schema.value -> W
    -> result apiclient.TurbotMetadata * W;
  UninstallMod : string -> W -> result unit * W
}.
Arguments ResourceExists {W}.
Arguments CreateResource {W}.
Arguments UpdateResource {W}.
Arguments DeleteResource {W}.
Arguments CreateFolder {W}.
Arguments UpdateFolder {W}.
Arguments UninstallMod {W}.

End lifecycle.

Section Lifecycle.

Context {W : Type}.
Variable J : json.Lib.
Variable sv : semver.Lib.
Variable client : apiclient.Client W.
Variable writes : lifecycle.Client W.

(** [strcase.ToLowerCamel] *)
Variable ToLowerCamel : string -> string.

(** The mod controller's own [setParentAkas(d, meta)]. *)
Variable setParentAkasOfMod : Go W (result unit).

Definition resourceTurbotResourceExists : Go W (result bool) :=
  id <- dId ;;
  call "ResourceExists" id (lifecycle.ResourceExists writes id).

Definition resourceTurbotResourceCreate : Go W (result unit) :=
  parent <- dGet "parent" ;;
  resourceType <- dGet "type" ;;
  body <- dGet "body" ;;
  (* create resource returns turbot resource metadata containing the id *)
  r <- call "CreateResource" parent
         (lifecycle.CreateResource writes resourceType parent body) ;;
  match r with
  | Err err => ret (Err err)
  | Ok turbotMetadata =>
      (* set parent_akas property by loading parent resource and fetching
         the akas *)
      r <- setParentAkas client (apiclient.ParentId turbotMetadata) ;;
      match r with
      | Err err => ret (Err err)
      | Ok _ =>
          (* assign the id *)
          dSetId (apiclient.Id turbotMetadata) ;;
          (* save formatted version of the body for consistency *)
          dSet "body" (schema.VString (formatBody J body)) ;;
          ret (Ok tt)
      end
  end.

Definition resourceTurbotResourceUpdate : Go W (result unit) :=
  body <- dGet "body" ;;
  parent <- dGet "parent" ;;
  resourceType <- dGet "type" ;;
  id <- dId ;;
  r <- call "UpdateResource" id
         (lifecycle.UpdateResource writes id resourceType parent body) ;;
  match r with
  | Err err => ret (Err err)
  | Ok turbotMetadata =>
      r <- setParentAkas client (apiclient.ParentId turbotMetadata) ;;
      match r with
      | Err err => ret (Err err)
      | Ok _ => ret (Ok tt)
      end
  end.

Definition resourceTurbotResourceDelete : Go W (result unit) :=
  id <- dId ;;
  r <- call "DeleteResource" id (lifecycle.DeleteResource writes id) ;;
  match r with
  | Err err => ret (Err err)
  | Ok _ =>
      (* clear the id to show we have deleted *)
      dSetId "" ;;
      ret (Ok tt)
  end.

(** The importer returns the one [ResourceData] it was handed, as the
    read left it. *)
Definition resourceTurbotResourceImport
  : Go W (result (list schema.ResourceData)) :=
  r <- resourceTurbotResourceRead J client ;;
  match r with
  | Err err => ret (Err err)
  | Ok _ => d <- getData ;; ret (Ok [d])
  end.

(** The loop over [properties]: a property that is set goes into the
    map under its lower-camel-case name. *)
Fixpoint mapFromResourceData_loop (d : schema.ResourceData)
    (properties : list string) (propertyMap : gmap string schema.value)
  : gmap string schema.value :=
  match properties with
  | [] => propertyMap
  | terraformProperty :: rest =>
      match schema.GetOk terraformProperty d with
      | (Some value, true) =>
          let turbotProperty := ToLowerCamel terraformProperty in
          mapFromResourceData_loop d rest (<[turbotProperty := value]> propertyMap)
      | _ => mapFromResourceData_loop d rest propertyMap
      end
  end.

Definition mapFromResourceData (d : schema.ResourceData)
    (properties : list string) : gmap string schema.value :=
  mapFromResourceData_loop d properties ∅.

(** properties which must be passed to a create/update call *)
Definition folderProperties : list string := ["title"; "description"].

Definition resourceTurbotFolderExists : Go W (result bool) :=
  id <- dId ;;
  call "ResourceExists" id (lifecycle.ResourceExists writes id).

Definition resourceTurbotFolderCreate : Go W (result unit) :=
  parentAka <- dGet "parent" ;;
  (* build map of folder properties *)
  d <- getData ;;
  let data := mapFromResourceData d folderProperties in
  r <- call "CreateFolder" parentAka
         (lifecycle.CreateFolder writes parentAka data) ;;
  match r with
  | Err err => ret (Err err)
  | Ok turbotMetadata =>
      let parentId := apiclient.ParentId turbotMetadata in
      r <- call "GetResourceAkas" parentId
             (apiclient.GetResourceAkas client parentId) ;;
      match r with
      | Err err => ret (Err err)
      | Ok parentAkas =>
          (* assign parent_akas *)
          dSet "parent_akas" (schema.ofSlice parentAkas) ;;
          (* assign the id *)
          dSetId (apiclient.Id turbotMetadata) ;;
          ret (Ok tt)
      end
  end.

Definition resourceTurbotFolderUpdate : Go W (result unit) :=
  parentAka <- dGet "parent" ;;
  id <- dId ;;
  d <- getData ;;
  let data := mapFromResourceData d folderProperties in
  r <- call "UpdateFolder" id
         (lifecycle.UpdateFolder writes id parentAka data) ;;
  match r with
  | Err err => ret (Err err)
  | Ok turbotMetadata =>
      let parentId := apiclient.ParentId turbotMetadata in
      r <- call "GetResourceAkas" parentId
             (apiclient.GetResourceAkas client parentId) ;;
      match r with
      | Err err => ret (Err err)
      | Ok parent_Akas =>
          dSet "parent_akas" (schema.ofSlice parent_Akas) ;;
          ret (Ok tt)
      end
  end.

Definition resourceTurbotFolderDelete : Go W (result unit) :=
  id <- dId ;;
  r <- call "DeleteResource" id (lifecycle.DeleteResource writes id) ;;
  match r with
  | Err err => ret (Err err)
  | Ok _ =>
      (* clear the id to show we have deleted *)
      dSetId "" ;;
      ret (Ok tt)
  end.

Definition resourceTurbotFolderImport
  : Go W (result (list schema.ResourceData)) :=
  r <- resourceTurbotFolderRead client ;;
  match r with
  | Err err => ret (Err err)
  | Ok _ => d <- getData ;; ret (Ok [d])
  end.

(** Exists is called prior to Read, and lowers the burden of Read to be
    able to assume the resource exists. *)
Definition resourceTurbotModExists : Go W (result bool) :=
  id <- dId ;;
  r <- call "ReadMod" id (apiclient.ReadMod client id) ;;
  match r with
  | Err err =>
      if apiclient.NotFoundError client err
      then ret (Ok false)
      else ret (Err err)
  | Ok _ => ret (Ok true)
  end.

Definition resourceTurbotModUninstall : Go W (result unit) :=
  id <- dId ;;
  r <- call "UninstallMod" id (lifecycle.UninstallMod writes id) ;;
  match r with
  | Err err => ret (Err err)
  | Ok _ =>
      (* clear the id to show we have deleted *)
      dSetId "" ;;
      ret (Ok tt)
  end.

Definition resourceTurbotModImport
  : Go W (result (list schema.ResourceData)) :=
  r <- resourceTurbotModRead sv client setParentAkasOfMod ;;
  match r with
  | Err err => ret (Err err)
  | Ok _ => d <- getData ;; ret (Ok [d])
  end.

End Lifecycle.

(** An executable [strcase.ToLowerCamel] for names made of letters,
    digits and the delimiters underscore, space, hyphen and dot. *)
Module GoStrcase.

Definition isLower (c : ascii) : bool :=
  let n := nat_of_ascii c in (97 <=? n)%nat && (n <=? 122)%nat.

Definition isUpper (c : ascii) : bool :=
  let n := nat_of_ascii c in (65 <=? n)%nat && (n <=? 90)%nat.

Definition isDelimiter (c : ascii) : bool :=
  let n := nat_of_ascii c in
  (n =? 95)%nat || (n =? 32)%nat || (n =? 45)%nat || (n =? 46)%nat.

Fixpoint toCamel (s : string) (capNext : bool) : string :=
  match s with
  | EmptyString => ""
  | String v rest =>
      let kept :=
        if isUpper v || GoJson.isDigit v then String v ""
        else if isLower v then
          if capNext then String (ascii_of_nat (nat_of_ascii v - 32)) ""
          else String v ""
        else "" in
      kept ++ toCamel rest (isDelimiter v)
  end.

Definition ToLowerCamel (s : string) : string :=
  match s with
  | EmptyString => s
  | String r rest =>
      if isUpper r
      then toCamel (String (ascii_of_nat (nat_of_ascii r + 32)) rest) false
      else toCamel s false
  end.

End GoStrcase.

(** The writing side of the in-memory server.  A created entity gets
    the next free number as its id; the parent of a created entity must
    be a resource the server holds. *)
Module Store.

Definition withResourceMap (rs : gmap string apiclient.Resource)
    (w : Server.state) : Server.state :=
  {| Server.resources := rs; Server.folders := Server.folders w;
     Server.versions := Server.versions w;
     Server.controls := Server.controls w;
     Server.reportedVersion := Server.reportedVersion w |}.

Definition withFolderMap (fs : gmap string apiclient.Folder)
    (w : Server.state) : Server.state :=
  {| Server.resources := Server.resources w; Server.folders := fs;
     Server.versions := Server.versions w;
     Server.controls := Server.controls w;
     Server.reportedVersion := Server.reportedVersion w |}.

Definition nextId (kind : string) (w : Server.state) : string :=
  kind ++ "-" ++ GoJson.encodeNumber (Z.of_nat (size (Server.resources w))).

Definition metadata (id parentId : string) : apiclient.TurbotMetadata :=
  {| apiclient.Id := id; apiclient.ParentId := parentId;
     apiclient.Akas := None |}.

Definition exists_ (id : string) (w : Server.state) : result bool * Server.state :=
  (Ok (bool_decide (is_Some (Server.resources w !! id))), w).

Definition create (resourceType parent body : string) (w : Server.state)
  : result apiclient.TurbotMetadata * Server.state :=
  match Server.resources w !! parent, GoJson.Unmarshal body with
  | None, _ => (Err Server.notFound, w)
  | Some _, Err err => (Err err, w)
  | Some _, Ok properties =>
      let id := nextId "res" w in
      (Ok (metadata id parent),
       withResourceMap
         (<[id := Server.resource id parent None properties]>
            (Server.resources w)) w)
  end.

Definition update (id resourceType parent body : string) (w : Server.state)
  : result apiclient.TurbotMetadata * Server.state :=
  match Server.resources w !! id, GoJson.Unmarshal body with
  | None, _ => (Err Server.notFound, w)
  | Some _, Err err => (Err err, w)
  | Some r, Ok properties =>
      let parentId := apiclient.ParentId (apiclient.Turbot r) in
      (Ok (metadata id parentId),
       withResourceMap
         (<[id := Server.resource id parentId
                    (apiclient.Akas (apiclient.Turbot r)) properties]>
            (Server.resources w)) w)
  end.

Definition delete_ (id : string) (w : Server.state)
  : result unit * Server.state :=
  match Server.resources w !! id with
  | None => (Err Server.notFound, w)
  | Some _ => (Ok tt, withResourceMap (delete id (Server.resources w)) w)
  end.

Definition text (data : gmap string schema.value) (key : string) : string :=
  match data !! key with
  | Some (schema.VString s) => s
  | _ => ""
  end.

Definition putFolder (id parent : string) (data : gmap string schema.value)
    (w : Server.state) : result apiclient.TurbotMetadata * Server.state :=
  let folder :=
    {| apiclient.FolderTurbot := metadata id parent;
       apiclient.FolderParent := parent;
       apiclient.Title := text data "title";
       apiclient.Description := text data "description" |} in
  (Ok (metadata id parent),
   withFolderMap (<[id := folder]> (Server.folders w))
     (withResourceMap
        (<[id := Server.resource id parent None ∅]> (Server.resources w)) w)).

Definition createFolder (parentAka : string)
    (data : gmap string schema.value) (w : Server.state)
  : result apiclient.TurbotMetadata * Server.state :=
  match Server.resources w !! parentAka with
  | None => (Err Server.notFound, w)
  | Some _ => putFolder (nextId "folder" w) parentAka data w
  end.

Definition updateFolder (id parentAka : string)
    (data : gmap string schema.value) (w : Server.state)
  : result apiclient.TurbotMetadata * Server.state :=
  match Server.folders w !! id with
  | None => (Err Server.notFound, w)
  | Some _ => putFolder id parentAka data w
  end.

Definition writes : lifecycle.Client Server.state :=
  {| lifecycle.ResourceExists := exists_;
     lifecycle.CreateResource := create;
     lifecycle.UpdateResource := update;
     lifecycle.DeleteResource := delete_;
     lifecycle.CreateFolder := createFolder;
     lifecycle.UpdateFolder := updateFolder;
     lifecycle.UninstallMod := delete_ |}.

(** A writing side that creates resources without looking at the
    parent they are declared under. *)
Definition createAnywhere (resourceType parent body : string)
    (w : Server.state) : result apiclient.TurbotMetadata * Server.state :=
  let id := nextId "res" w in
  (Ok (metadata id parent),
   withResourceMap
     (<[id := Server.resource id parent None ∅]> (Server.resources w)) w).

Definition careless : lifecycle.Client Server.state :=
  {| lifecycle.ResourceExists := exists_;
     lifecycle.CreateResource := createAnywhere;
     lifecycle.UpdateResource := update;
     lifecycle.DeleteResource := delete_;
     lifecycle.CreateFolder := createFolder;
     lifecycle.UpdateFolder := updateFolder;
     lifecycle.UninstallMod := delete_ |}.

(** The reading side of a server on which the mod [installed] can be
    read under every id that names a resource. *)
Definition modClient (installed : apiclient.Mod)
  : apiclient.Client Server.state :=
  {| apiclient.ReadResource := apiclient.ReadResource Server.client;
     apiclient.ReadFolder := apiclient.ReadFolder Server.client;
     apiclient.GetResourceAkas := apiclient.GetResourceAkas Server.client;
     apiclient.ReadMod := fun id w =>
       match Server.resources w !! id with
       | Some _ => (Ok installed, w)
       | None => (Err Server.notFound, w)
       end;
     apiclient.GetModVersions := apiclient.GetModVersions Server.client;
     apiclient.InstallMod := apiclient.InstallMod Server.client;
     apiclient.ReadControl := apiclient.ReadControl Server.client;
     apiclient.NotFoundError := apiclient.NotFoundError Server.client;
     apiclient.Elapse := apiclient.Elapse Server.client |}.

(** A server that holds one root resource with the given akas. *)
Definition rooted (akas : option (list string)) : Server.state :=
  Server.withResources [("root", Server.resource "root" "" akas ∅)]
    Server.empty.

End Store.

(** ** Statements about lists of published versions *)
Section PublishedVersions.

Variable sv : semver.Lib.

(** Every available entry of the list has a well-formed version. *)
Definition wellFormed (modVersions : list apiclient.ModVersions) : Prop :=
  forall entry : apiclient.ModVersions,
    entry ∈ modVersions ->
    apiclient.Status entry = "available" ->
    isOk (semver.NewVersion sv (apiclient.Version entry)) = true.

(** The available entries come in ascending order of their versions. *)
Definition ascending (modVersions : list apiclient.ModVersions) : Prop :=
  forall (i j : nat) (e1 e2 : apiclient.ModVersions)
         (v1 v2 : semver.Version sv),
    (i <= j)%nat ->
    modVersions !! i = Some e1 ->
    modVersions !! j = Some e2 ->
    apiclient.Status e1 = "available" ->
    apiclient.Status e2 = "available" ->
    semver.NewVersion sv (apiclient.Version e1) = Ok v1 ->
    semver.NewVersion sv (apiclient.Version e2) = Ok v2 ->
    semver.Compare sv v1 v2 <> Gt.

End PublishedVersions.

(** * Properties *)

(** ** The diff-suppression predicates *)
Section Suppression.

Variable J : json.Lib.

Lemma akaMatches_elem_of (parentAkas : list string) (new : string) :
  akaMatches parentAkas new = true <-> new ∈ parentAkas.
Proof.
  induction parentAkas as [|aka rest IH]; simpl.
  - split; [discriminate | intros H; inversion H].
  - destruct (String.eqb_spec aka new) as [->|Hne].
    + split; [intros _; left | reflexivity].
    + rewrite IH. split.
      * intros Hin. by right.
      * intros Hin. inversion Hin; subst; [congruence | assumption].
Qed.

(** C7: the parent predicate suppresses the diff exactly when
    [parent_akas] holds a list that is not empty and has the new value
    among its elements; when [parent_akas] is absent it answers false. *)
Theorem supressIfParentAkaMatches_spec (k old new : string)
    (d : schema.ResourceData) :
  (supressIfParentAkaMatches k old new d = true <->
     exists akas : list string,
       schema.fields d !! "parent_akas" = Some (schema.VList akas)
       /\ akas <> [] /\ new ∈ akas)
  /\ (schema.fields d !! "parent_akas" = None ->
      supressIfParentAkaMatches k old new d = false).
Proof.
  unfold supressIfParentAkaMatches, schema.GetOk.
  split.
  - destruct (schema.fields d !! "parent_akas") as [v|] eqn:Hlook.
    + destruct v as [s|akas|m]; simpl.
      * split; [by destruct (bool_decide (s = "")) | ].
        intros (akas & Heq & _); discriminate.
      * case_bool_decide as Hnil; simpl.
        -- subst akas. split; [discriminate|].
           intros (akas & Heq & Hne & _). congruence.
        -- rewrite akaMatches_elem_of. split.
           ++ intros Hin. exists akas. done.
           ++ intros (akas' & Heq & _ & Hin). congruence.
      * split; [by destruct (bool_decide (m = ∅)) | ].
        intros (akas & Heq & _); discriminate.
    + simpl. split; [discriminate|]. intros (akas & Heq & _); discriminate.
  - intros ->. reflexivity.
Qed.

Lemma supressIfParentAkaMatches_spec_witness :
  let d := {| schema.id := "r1";
              schema.fields := {[ "parent_akas" := schema.VList ["tmod:@turbot/turbot#/"; "162675"] ]} |} in
  supressIfParentAkaMatches "parent" "162675" "tmod:@turbot/turbot#/" d = true
  /\ supressIfParentAkaMatches "parent" "162675" "other"
       (schema.SetId "r1" {| schema.id := ""; schema.fields := ∅ |}) = false.
Proof.
  split.
  - apply (supressIfParentAkaMatches_spec "parent" "162675").
    eexists. split; [reflexivity|]. split; [discriminate|].
    apply list_elem_of_here.
  - apply (supressIfParentAkaMatches_spec "parent" "162675"). reflexivity.
Defined.

(** C8: two texts that decode to objects with the same members have
    the same normal form, so the body predicate suppresses their diff
    when neither is empty; it never suppresses when a side is empty. *)
Theorem suppressIfBodyMatches_reordering (k a b : string)
    (d : schema.ResourceData) (da db : gmap string json) :
  json.Unmarshal J a = Ok da ->
  json.Unmarshal J b = Ok db ->
  (forall key : string, da !! key = db !! key) ->
  formatBody J a = formatBody J b
  /\ (a <> "" -> b <> "" -> suppressIfBodyMatches J k a b d = true)
  /\ (forall old new : string,
        old = "" \/ new = "" -> suppressIfBodyMatches J k old new d = false).
Proof.
  intros Ha Hb Hsame.
  assert (da = db) as -> by (by apply map_eq).
  assert (formatBody J a = formatBody J b) as Hfmt.
  { unfold formatBody. by rewrite Ha, Hb. }
  split; [exact Hfmt|]. split.
  - intros Hna Hnb. unfold suppressIfBodyMatches.
    destruct (String.eqb_spec a ""); [done|].
    destruct (String.eqb_spec b ""); [done|]. simpl.
    rewrite Hfmt. apply String.eqb_refl.
  - intros old new [-> | ->]; unfold suppressIfBodyMatches.
    + reflexivity.
    + by rewrite orb_true_r.
Qed.

End Suppression.

Lemma suppressIfBodyMatches_reordering_witness :
  let a := GoJson.js "{'b': [1, 2], 'a': {'y': null, 'x': true}}" in
  let b := GoJson.js "{ 'a': {'x': true, 'y': null},
  'b': [1,2] }" in
  let d := {| schema.id := ""; schema.fields := ∅ |} in
  a <> b
  /\ formatBody GoJson.lib a = formatBody GoJson.lib b
  /\ suppressIfBodyMatches GoJson.lib "body" a b d = true
  /\ suppressIfBodyMatches GoJson.lib "body" "" b d = false.
Proof.
  intros a b d.
  destruct (suppressIfBodyMatches_reordering GoJson.lib "body" a b d
              (<["a" := JObject (<["x" := JBool true]> {[ "y" := JNull ]})]>
                 {[ "b" := JArray [JNumber 1; JNumber 2] ]})
              (<["b" := JArray [JNumber 1; JNumber 2]]>
                 {[ "a" := JObject (<["y" := JNull]> {[ "x" := JBool true ]}) ]}))
    as (Hfmt & Hsup & Hempty).
  - vm_compute. reflexivity.
  - vm_compute. reflexivity.
  - intros key.
    apply (f_equal (fun m : gmap string json => m !! key)).
    vm_compute. reflexivity.
  - split; [discriminate|]. split; [exact Hfmt|]. split.
    + apply Hsup; discriminate.
    + apply Hempty. by left.
Defined.

(** ** The property projection of a body *)
Section Projection.

Variable J : json.Lib.

Lemma properties_fold_lookup (data : gmap string json) (key : string) :
  map_fold (fun k _ (properties : gmap string string) => <[k := k]> properties)
    ∅ data !! key
  = (fun _ => key) <$> data !! key.
Proof.
  apply (map_fold_weak_ind
           (fun (r : gmap string string) (m : gmap string json) =>
              r !! key = (fun _ => key) <$> m !! key)).
  - by rewrite !lookup_empty.
  - intros i x m r Hfresh IH.
    destruct (decide (i = key)) as [->|Hne].
    + by rewrite !lookup_insert_eq.
    + by rewrite !lookup_insert_ne.
Qed.

Lemma propertiesFromBody_keys (body : string) (data : gmap string json) :
  json.Unmarshal J body = Ok data ->
  exists properties : gmap string string,
    propertiesFromBody J body = Ok properties
    /\ JString <$> properties = keysAsValues data.
Proof.
  intros Hdata. unfold propertiesFromBody. rewrite Hdata.
  eexists. split; [reflexivity|].
  apply map_eq. intros key. unfold keysAsValues.
  rewrite lookup_fmap, properties_fold_lookup, map_lookup_imap.
  by destruct (data !! key).
Qed.

(** C6, as amended: when the normal form of [x] decodes to the object
    [x] decodes to, the round trip yields the encoding of the object
    that has the top-level keys of [x], each with its own name as its
    value; the values of [x] are not in it. *)
Theorem roundTrip_keeps_keys_only (x : string) (data : gmap string json) :
  json.Unmarshal J x = Ok data ->
  json.Unmarshal J (formatBody J x) = Ok data ->
  roundTrip J x = bodyFromProperties J (keysAsValues data)
  /\ forall key : string,
       keysAsValues data !! key = (fun _ => JString key) <$> data !! key.
Proof.
  intros _ Hnormal.
  destruct (propertiesFromBody_keys _ _ Hnormal) as (properties & Hprops & Hkeys).
  split.
  - unfold roundTrip. by rewrite Hprops, Hkeys.
  - intros key. unfold keysAsValues. rewrite map_lookup_imap.
    by destruct (data !! key).
Qed.

End Projection.

Lemma roundTrip_keeps_keys_only_witness :
  let x := GoJson.js "{'title': 'Folder', 'count': 3}" in
  roundTrip GoJson.lib x
  = Ok (GoJson.js "{
 'count': 'count',
 'title': 'title'
}").
Proof.
  intros x.
  destruct (roundTrip_keeps_keys_only GoJson.lib x
              (<["title" := JString "Folder"]> {[ "count" := JNumber 3 ]}))
    as [Hround _].
  - vm_compute. reflexivity.
  - vm_compute. reflexivity.
  - rewrite Hround. vm_compute. reflexivity.
Defined.

(** C6 as stated fails: the body with the one member a = 1 comes back
    from the round trip as the body with the member a = the string a,
    which is a different document. *)
Lemma roundTrip_loses_values :
  let x := GoJson.js "{'a': 1}" in
  let y := GoJson.js "{
 'a': 'a'
}" in
  json.Unmarshal GoJson.lib x = Ok {[ "a" := JNumber 1 ]}
  /\ roundTrip GoJson.lib x = Ok y
  /\ json.Unmarshal GoJson.lib y = Ok {[ "a" := JString "a" ]}
  /\ ~ sameDocument GoJson.lib x y.
Proof.
  intros x y.
  assert (json.Unmarshal GoJson.lib x = Ok {[ "a" := JNumber 1 ]}) as Hx
    by (vm_compute; reflexivity).
  assert (json.Unmarshal GoJson.lib y = Ok {[ "a" := JString "a" ]}) as Hy
    by (vm_compute; reflexivity).
  split; [exact Hx|]. split; [vm_compute; reflexivity|]. split; [exact Hy|].
  intros (data & Hdx & Hdy). rewrite Hx in Hdx. rewrite Hy in Hdy.
  assert (({[ "a" := JNumber 1 ]} : gmap string json) !! "a"
          = ({[ "a" := JString "a" ]} : gmap string json) !! "a") as Hmember
    by congruence.
  vm_compute in Hmember. discriminate.
Qed.

(** ** The installation poll *)
Section Poll.

Context {W : Type}.
Variable client : apiclient.Client W.

Lemma getInstalledModVersion_events (modId : string) (m : Machine W) :
  events (getInstalledModVersion client modId m).2
  = (events m ++ [Called "ReadResource" modId])%list.
Proof.
  unfold getInstalledModVersion, bind, call, ret, panic.
  destruct (apiclient.ReadResource client modId _ (remote m)) as [[resource|err] w];
    simpl; [|reflexivity].
  destruct (apiclient.Data resource !! "version") as [[]|]; reflexivity.
Qed.

Lemma pollRounds_calls (n : nat) (modId : string) (sleep : Z) :
  calls (pollRounds n modId sleep) = n
  /\ timeSlept (pollRounds n modId sleep) = (Z.of_nat n * sleep)%Z.
Proof.
  induction n as [|n [IHc IHt]]; simpl; [split; reflexivity|].
  rewrite IHc, IHt. split; [reflexivity | lia].
Qed.

(** The loop ends right after a read: no round was completed. *)
Ltac stops_after_read Hpoll :=
  exists 0%nat; eexists; simpl;
  split; [exact Hpoll|]; split; [lia|]; right; split; [reflexivity|lia].

(** Whatever the remote side answers, the loop makes whole rounds,
    at most [remaining] of them, possibly followed by one last read. *)
Lemma waitForInstallation_loop_events (modId targetVersion : string)
    (sleep : Z) (remaining : nat) :
  forall (retryCount : Z) (m : Machine W),
  exists (n : nat) (last : list Event),
    events (waitForInstallation_loop client remaining retryCount sleep
              modId targetVersion m).2
    = (events m ++ pollRounds n modId sleep ++ last)%list
    /\ (n <= remaining)%nat
    /\ (last = [] \/
        (last = [Called "ReadResource" modId] /\ (n < remaining)%nat)).
Proof.
  induction remaining as [|remaining IH]; intros retryCount m; simpl.
  - exists 0%nat, []. simpl. rewrite app_nil_r. auto.
  - unfold bind at 1.
    pose proof (getInstalledModVersion_events modId m) as Hpoll.
    destruct (getInstalledModVersion client modId m) as [[[v|err]|msg] m1];
      simpl in Hpoll.
    + destruct (String.eqb v targetVersion).
      * stops_after_read Hpoll.
      * unfold bind at 1. unfold Sleep at 1.
        match goal with
        | |- context [waitForInstallation_loop _ _ ?rc _ _ _ ?m2] =>
            destruct (IH rc m2) as (n & last & Hev & Hle & Hlast)
        end.
        exists (S n), last. rewrite Hev. simpl. rewrite Hpoll.
        split; [by rewrite <- !app_assoc|]. split; [lia|].
        destruct Hlast as [->|[-> Hlt]]; [by left|right; split; [done|lia]].
    + stops_after_read Hpoll.
    + stops_after_read Hpoll.
Qed.

(** When no read fails and none reports the target version, the loop
    uses up its rounds and ends with the timeout error. *)
Lemma waitForInstallation_loop_timeout (modId targetVersion : string)
    (sleep : Z) (remaining : nat) :
  (forall m : Machine W,
     exists (v : string) (m' : Machine W),
       getInstalledModVersion client modId m = (Returns (Ok v), m')
       /\ v <> targetVersion) ->
  forall (retryCount : Z) (m : Machine W),
    waitForInstallation_loop client remaining retryCount sleep
      modId targetVersion m
    = (Returns (Err timedOut),
       {| data := data m;
          remote :=
            remote (waitForInstallation_loop client remaining retryCount
                      sleep modId targetVersion m).2;
          events := events m ++ pollRounds remaining modId sleep |}).
Proof.
  intros Hnever.
  induction remaining as [|remaining IH]; intros retryCount m; simpl.
  - rewrite app_nil_r. by destruct m.
  - unfold bind at 1 3.
    pose proof (getInstalledModVersion_events modId m) as Hpoll.
    assert (data (getInstalledModVersion client modId m).2 = data m) as Hdata.
    { unfold getInstalledModVersion, bind, call, ret, panic.
      destruct (apiclient.ReadResource client modId _ (remote m)) as [[resource|err] w];
        simpl; [|reflexivity].
      destruct (apiclient.Data resource !! "version") as [[]|]; reflexivity. }
    destruct (Hnever m) as (v & m1 & Hread & Hne). rewrite Hread in *.
    simpl in Hpoll, Hdata.
    destruct (String.eqb_spec v targetVersion) as [|_]; [contradiction|].
    unfold bind, Sleep. simpl.
    rewrite IH at 1. simpl. rewrite Hpoll, Hdata.
    by rewrite <- !app_assoc.
Qed.

(** A wait whose first read reports the target version returns at
    once, without sleeping. *)
Lemma waitForInstallation_converged (modId targetVersion : string)
    (m m' : Machine W) :
  getInstalledModVersion client modId m = (Returns (Ok targetVersion), m') ->
  waitForInstallation client modId targetVersion m = (Returns (Ok tt), m').
Proof.
  intros Hread. unfold waitForInstallation.
  change (Z.to_nat (40 - 0)) with 40%nat. simpl.
  unfold bind. rewrite Hread. by rewrite String.eqb_refl.
Qed.

(** A wait whose first read fails returns that error at once. *)
Lemma waitForInstallation_read_error (modId targetVersion : string)
    (err : error) (m m' : Machine W) :
  getInstalledModVersion client modId m = (Returns (Err err), m') ->
  waitForInstallation client modId targetVersion m = (Returns (Err err), m').
Proof.
  intros Hread. unfold waitForInstallation.
  change (Z.to_nat (40 - 0)) with 40%nat. simpl.
  unfold bind. by rewrite Hread.
Qed.

(** C9: a wait makes at most 40 reads of the mod resource, consecutive
    reads being separated by a sleep of 20 seconds; when no read fails
    and none reports the target version, it makes exactly 40 reads and
    40 sleeps and returns the timeout error. *)
Theorem waitForInstallation_budget (modId targetVersion : string)
    (m : Machine W) :
  let out := waitForInstallation client modId targetVersion m in
  (exists (n : nat) (last : list Event),
     events out.2 = (events m ++ pollRounds n modId (20 * Second) ++ last)%list
     /\ (n <= 40)%nat
     /\ (last = [] \/
         (last = [Called "ReadResource" modId] /\ (n < 40)%nat)))
  /\ ((forall m0 : Machine W,
         exists (v : string) (m' : Machine W),
           getInstalledModVersion client modId m0 = (Returns (Ok v), m')
           /\ v <> targetVersion) ->
      out.1 = Returns (Err timedOut)
      /\ events out.2 = (events m ++ pollRounds 40 modId (20 * Second))%list
      /\ calls (pollRounds 40 modId (20 * Second)) = 40%nat
      /\ timeSlept (pollRounds 40 modId (20 * Second)) = (40 * (20 * Second))%Z).
Proof.
  unfold waitForInstallation.
  change (Z.to_nat (40 - 0)) with 40%nat. split.
  - apply waitForInstallation_loop_events.
  - intros Hnever.
    rewrite (waitForInstallation_loop_timeout modId targetVersion
               (20 * Second) 40 Hnever 0%Z m). simpl.
    split; [reflexivity|]. split; [reflexivity|].
    destruct (pollRounds_calls 40 modId (20 * Second)) as [Hc Ht].
    split; [exact Hc | exact Ht].
Qed.

End Poll.

Lemma waitForInstallation_budget_witness :
  let out := waitForInstallation (Frozen.client "5.0.0") "mod-1" "5.1.0"
               Frozen.start in
  out.1 = Returns (Err timedOut)
  /\ events out.2 = pollRounds 40 "mod-1" (20 * Second)
  /\ calls (events out.2) = 40%nat
  /\ timeSlept (events out.2) = (800 * Second)%Z.
Proof.
  intros out.
  destruct (waitForInstallation_budget (Frozen.client "5.0.0") "mod-1" "5.1.0"
              Frozen.start) as [_ Hexact].
  destruct Hexact as (Hres & Hev & Hcalls & Hslept).
  - intros m0. eexists. eexists. split; [reflexivity | discriminate].
  - assert (events out.2 = pollRounds 40 "mod-1" (20 * Second)) as Hev'
      by exact Hev.
    rewrite Hev'. split; [exact Hres|]. split; [reflexivity|].
    split; [exact Hcalls|]. rewrite Hslept. reflexivity.
Defined.

(** ** Reads that fail remotely *)
Section FailedRead.

Context {W : Type}.
Variable J : json.Lib.
Variable client : apiclient.Client W.

(** C4, as amended: when the remote read of a resource or of a folder
    fails, the read returns that error; the id is cleared when the
    error is a not-found error and is unchanged otherwise, and the
    fields are unchanged. *)
Theorem read_failure_is_returned (m : Machine W) (err : error) (w' : W) :
  (forall properties : gmap string string,
     propertiesFromBody J (schema.GetString "body" (data m)) = Ok properties ->
     apiclient.ReadResource client (schema.id (data m)) (Some properties)
       (remote m) = (Err err, w') ->
     let out := resourceTurbotResourceRead J client m in
     out.1 = Returns (Err err)
     /\ schema.id (data out.2)
        = (if apiclient.NotFoundError client err then ""
           else schema.id (data m))
     /\ schema.fields (data out.2) = schema.fields (data m))
  /\ (apiclient.ReadFolder client (schema.id (data m)) (remote m) = (Err err, w') ->
      let out := resourceTurbotFolderRead client m in
      out.1 = Returns (Err err)
      /\ schema.id (data out.2)
        = (if apiclient.NotFoundError client err then ""
           else schema.id (data m))
      /\ schema.fields (data out.2) = schema.fields (data m)).
Proof.
  split.
  - intros properties Hprops Hread.
    unfold resourceTurbotResourceRead, bind, dId, dGet, getData, ret, call.
    simpl. unfold schema.Id. rewrite Hprops. rewrite Hread. simpl.
    destruct (apiclient.NotFoundError client err); simpl; auto.
  - intros Hread.
    unfold resourceTurbotFolderRead, bind, dId, getData, ret, call.
    simpl. unfold schema.Id. rewrite Hread. simpl.
    destruct (apiclient.NotFoundError client err); simpl; auto.
Qed.

End FailedRead.

Lemma read_failure_is_returned_witness :
  let m := Server.start "r-404" [("body", schema.VString "{}")] Server.empty in
  let out := resourceTurbotResourceRead GoJson.lib Server.client m in
  out.1 = Returns (Err Server.notFound)
  /\ schema.id (data out.2) = ""
  /\ schema.fields (data out.2) = schema.fields (data m).
Proof.
  intros m out.
  destruct (read_failure_is_returned GoJson.lib Server.client m
              Server.notFound Server.empty) as [Hresource _].
  apply (Hresource ∅); vm_compute; reflexivity.
Defined.

(** C4 as stated fails: a resource read whose remote read fails with the
    not-found error clears the id and reports the read as failed, with
    that error. *)
Lemma read_not_found_is_reported :
  let m := Server.start "r-404" [("body", schema.VString "{}")] Server.empty in
  let out := resourceTurbotResourceRead GoJson.lib Server.client m in
  apiclient.ReadResource Server.client "r-404" (Some ∅) Server.empty
    = (Err Server.notFound, Server.empty)
  /\ apiclient.NotFoundError Server.client Server.notFound = true
  /\ schema.id (data out.2) = ""
  /\ out.1 = Returns (Err Server.notFound)
  /\ out.1 <> Returns (Ok tt).
Proof.
  intros m out. repeat split; try (vm_compute; reflexivity).
  vm_compute. discriminate.
Qed.

(** ** The parent akas *)
Section ParentAkas.

Context {W : Type}.
Variable client : apiclient.Client W.

(** What [setParentAkas] stores is the alias slice as the parent
    carries it. *)
Lemma setParentAkas_stores_akas (parentId : string) (m : Machine W)
    (parent : apiclient.Resource) (w' : W) :
  apiclient.ReadResource client parentId None (remote m) = (Ok parent, w') ->
  setParentAkas client parentId m
  = (Returns (Ok tt),
     {| data :=
          schema.Set_ "parent_akas"
            (schema.ofSlice (apiclient.Akas (apiclient.Turbot parent)))
            (data m);
        remote := w';
        events := events m ++ [Called "ReadResource" parentId] |}).
Proof.
  intros Hread. unfold setParentAkas, bind, call, dSet, setData, ret.
  rewrite Hread. reflexivity.
Qed.

End ParentAkas.

(** C3: for a parent that is read successfully and has no akas,
    [setParentAkas] stores the empty list in [parent_akas], not the
    list holding the parent id. *)
Theorem setParentAkas_without_akas :
  let w := Server.withResources
             [("p-1", Server.resource "p-1" "root" None ∅)] Server.empty in
  let m := Server.start "r-1" [] w in
  let out := setParentAkas Server.client "p-1" m in
  out.1 = Returns (Ok tt)
  /\ schema.fields (data out.2) !! "parent_akas" = Some (schema.VList [])
  /\ schema.fields (data out.2) !! "parent_akas" <> Some (schema.VList ["p-1"]).
Proof.
  intros w m out.
  assert (schema.fields (data out.2) !! "parent_akas" = Some (schema.VList []))
    as Hstored by (vm_compute; reflexivity).
  split; [vm_compute; reflexivity|]. split; [exact Hstored|].
  rewrite Hstored. discriminate.
Qed.

(** C5: with the uri and the resource id both declared, the selector
    handed to [ReadControl] pairs the uri with the uri; with the
    resource id left empty, the selector is still that pair and not the
    explicit id. *)
Theorem dataSourceTurbotControlRead_selector :
  let declared resource :=
    Server.start ""
      [("id", schema.VString "c-1"); ("uri", schema.VString "tmod:aws#/control");
       ("resource", schema.VString resource)] Server.empty in
  let passed resource :=
    events (dataSourceTurbotControlRead Server.client (declared resource)).2 in
  passed "res-9"
    = [Called "ReadControl" "uri: tmod:aws#/control, resourceId: tmod:aws#/control"]
  /\ passed "res-9"
     <> [Called "ReadControl" "uri: tmod:aws#/control, resourceId: res-9"]
  /\ passed ""
     = [Called "ReadControl" "uri: tmod:aws#/control, resourceId: tmod:aws#/control"]
  /\ passed "" <> [Called "ReadControl" "id: c-1"].
Proof.
  intros declared passed.
  repeat split; try (vm_compute; reflexivity); vm_compute; discriminate.
Qed.

(** ** Version resolution *)
Section Resolution.

Variable sv : semver.Lib.

Lemma last_cons {A} (x : A) (l : list A) (d : A) :
  List.last (x :: l) d = List.last l x.
Proof.
  revert x d. induction l as [|y l IH]; intros x d; [reflexivity|].
  change (List.last (x :: y :: l) d) with (List.last (y :: l) d).
  rewrite !IH. reflexivity.
Qed.

(** When every available entry has a well-formed version, the loop
    returns the version string of the last entry it takes, in list
    order, and the initial value when it takes none. *)
Lemma latestCompatibleAmong_last (c : semver.Constraints sv)
    (modVersions : list apiclient.ModVersions) :
  (forall entry : apiclient.ModVersions,
     entry ∈ modVersions ->
     apiclient.Status entry = "available" ->
     isOk (semver.NewVersion sv (apiclient.Version entry)) = true) ->
  forall initial : string,
    latestCompatibleAmong sv c modVersions initial
    = Ok (List.last
            (map apiclient.Version (List.filter (taken sv c) modVersions))
            initial).
Proof.
  induction modVersions as [|entry rest IH]; intros Hparse initial;
    [reflexivity|].
  assert (forall e : apiclient.ModVersions,
            e ∈ rest -> apiclient.Status e = "available" ->
            isOk (semver.NewVersion sv (apiclient.Version e)) = true) as Hrest.
  { intros e He. apply Hparse. by right. }
  simpl. unfold taken at 1.
  destruct (String.eqb_spec (apiclient.Status entry) "available") as [Hav|_];
    simpl; [|by apply IH].
  pose proof (Hparse entry (list_elem_of_here _ _) Hav) as Hok.
  destruct (semver.NewVersion sv (apiclient.Version entry)) as [v|err];
    [|discriminate].
  destruct (semver.Check sv c v).
  - rewrite IH by exact Hrest. simpl map. by rewrite last_cons.
  - by apply IH.
Qed.

End Resolution.

(** The resolver on lists in ascending order, and on a malformed entry. *)
Example resolve_wildcard :
  resolve "*" [("1.0.0", "available"); ("1.2.0", "available");
               ("2.0.0", "unavailable")]
  = Returns (Ok "1.2.0").
Proof. vm_compute. reflexivity. Qed.

Example resolve_caret :
  resolve "^1.0.0" [("1.0.0", "available"); ("1.5.0", "available");
                    ("2.0.0", "available")]
  = Returns (Ok "1.5.0").
Proof. vm_compute. reflexivity. Qed.

Example resolve_no_match :
  resolve "^3.0.0" [("1.0.0", "available"); ("2.0.0", "available")]
  = Returns (Ok "").
Proof. vm_compute. reflexivity. Qed.

Example resolve_malformed_entry :
  resolve "*" [("1.0.0", "available"); ("one", "available")]
  = Returns (Err "Invalid Semantic Version").
Proof. vm_compute. reflexivity. Qed.

(** C1: with the constraint * and the published versions 2.0.0 and
    1.0.0, in this order and both available, the resolver returns 1.0.0,
    the last entry of the list, although 2.0.0 satisfies the constraint
    and is the greater version. *)
Theorem getLatestCompatibleVersion_list_order :
  let w := Server.withVersions
             [("2.0.0", "available"); ("1.0.0", "available")] "" Server.empty in
  let m := Server.start ""
             [("org", schema.VString "turbot"); ("mod", schema.VString "aws");
              ("version", schema.VString "*")] w in
  (getLatestCompatibleVersion GoSemver.lib Server.client m).1
    = Returns (Ok "1.0.0")
  /\ exists (c : semver.Constraints GoSemver.lib)
            (v1 v2 : semver.Version GoSemver.lib),
       semver.NewConstraint GoSemver.lib "*" = Ok c
       /\ semver.NewVersion GoSemver.lib "1.0.0" = Ok v1
       /\ semver.NewVersion GoSemver.lib "2.0.0" = Ok v2
       /\ semver.Check GoSemver.lib c v2 = true
       /\ semver.Compare GoSemver.lib v1 v2 = Lt.
Proof.
  intros w m. split; [vm_compute; reflexivity|].
  eexists. eexists. eexists.
  repeat split; vm_compute; reflexivity.
Qed.

(** ** Mod installation *)

(** C2: against a remote side whose installed version stays at 0.9.0
    while the target is 1.0.0, the wait inside [modInstall] ends with
    the timeout error after its 40 rounds, and [modInstall] nevertheless
    returns without error, with the id assigned. *)
Theorem modInstall_drops_timeout :
  let w := Server.withResources
             [("p-1", Server.resource "p-1" "root" (Some ["p-1"]) ∅)]
             (Server.withVersions [("1.0.0", "available")] "0.9.0" Server.empty) in
  let m := Server.start ""
             [("parent", schema.VString "p-1"); ("org", schema.VString "turbot");
              ("mod", schema.VString "aws"); ("version", schema.VString "*")] w in
  let resolved := getLatestCompatibleVersion GoSemver.lib Server.client m in
  let installed :=
    call "InstallMod" "aws"
      (apiclient.InstallMod Server.client "p-1" "turbot" "aws" "*") resolved.2 in
  let waited :=
    waitForInstallation Server.client Server.modId "1.0.0" installed.2 in
  let out := modInstall GoSemver.lib Server.client Server.setParentAkasOfMod m in
  resolved.1 = Returns (Ok "1.0.0")
  /\ waited.1 = Returns (Err timedOut)
  /\ out.1 = Returns (Ok tt)
  /\ schema.id (data out.2) = Server.modId
  /\ events out.2
     = (events waited.2 ++ [Called "ReadResource" "p-1"])%list
  /\ calls (events waited.2) = 42%nat.
Proof.
  intros w m resolved installed waited out.
  repeat split; vm_compute; reflexivity.
Qed.

Section DerivedVersion.

Context {W : Type}.
Variable sv : semver.Lib.
Variable client : apiclient.Client W.
Variable setParentAkas : Go W (result unit).

Lemma dGet_run (key : string) (m : Machine W) :
  dGet key m = (Returns (schema.GetString key (data m)), m).
Proof. reflexivity. Qed.

(** C10: the predicate on the version field answers false on every
    input; and every install and every read that succeeds leaves in
    [latest_compatible_version] the version that
    [getLatestCompatibleVersion] returned during it. *)
Theorem supressIfLatestCompatibleVersionInstalled_never :
  (forall (k old new : string) (d : schema.ResourceData),
     supressIfLatestCompatibleVersionInstalled k old new d = false)
  /\ (forall m m' : Machine W,
        modInstall sv client setParentAkas m = (Returns (Ok tt), m') ->
        exists (target : string) (m1 : Machine W),
          getLatestCompatibleVersion sv client m = (Returns (Ok target), m1)
          /\ schema.fields (data m') !! "latest_compatible_version"
             = Some (schema.VString target))
  /\ (forall m m' : Machine W,
        resourceTurbotModRead sv client setParentAkas m = (Returns (Ok tt), m') ->
        exists (target : string) (m1 : Machine W),
          getLatestCompatibleVersion sv client
            (call "ReadMod" (schema.id (data m))
               (apiclient.ReadMod client (schema.id (data m))) m).2
          = (Returns (Ok target), m1)
          /\ schema.fields (data m') !! "latest_compatible_version"
             = Some (schema.VString target)).
Proof.
  split; [reflexivity|]. split.
  - intros m m'. unfold modInstall.
    unfold bind at 1 2 3 4 5. rewrite !dGet_run.
    destruct (getLatestCompatibleVersion sv client m)
      as [[[target|err]|msg] m1]; try discriminate.
    unfold bind at 1.
    destruct (call "InstallMod" _ _ m1) as [[[mod_|err]|msg] m2];
      try discriminate.
    unfold bind at 1.
    destruct (waitForInstallation client _ target m2) as [[r|msg] m3];
      try discriminate.
    unfold bind at 1.
    destruct (setParentAkas m3) as [[[[]|err]|msg] m4]; try discriminate.
    unfold bind, dSetId, dSet, setData, ret. simpl.
    intros [= <-]. exists target, m1. split; [reflexivity|].
    simpl. apply lookup_insert_eq.
  - intros m m'. unfold resourceTurbotModRead.
    unfold bind at 1. unfold dId at 1. unfold bind at 1, getData at 1, ret at 1.
    unfold schema.Id. unfold bind at 1.
    destruct (call "ReadMod" _ _ m) as [[[mod_|err]|msg] m0] eqn:Hcall.
    + simpl. unfold bind at 1.
      destruct (getLatestCompatibleVersion sv client m0)
        as [[[target|err]|msg] m1]; try discriminate.
      unfold bind at 1.
      destruct (setParentAkas m1) as [[[[]|err]|msg] m2]; try discriminate.
      unfold bind, dSet, setData, ret. simpl.
      intros [= <-]. exists target, m1. split; [reflexivity|].
      simpl. apply lookup_insert_eq.
    + unfold bind.
      destruct (apiclient.NotFoundError client err); simpl; discriminate.
    + discriminate.
Qed.

End DerivedVersion.

Lemma supressIfLatestCompatibleVersionInstalled_never_witness :
  let w := Server.withResources
             [("p-1", Server.resource "p-1" "root" (Some ["p-1"]) ∅)]
             (Server.withVersions [("1.0.0", "available")] "1.0.0" Server.empty) in
  let m := Server.start ""
             [("parent", schema.VString "p-1"); ("org", schema.VString "turbot");
              ("mod", schema.VString "aws"); ("version", schema.VString "^1.0.0")] w in
  let out := modInstall GoSemver.lib Server.client Server.setParentAkasOfMod m in
  supressIfLatestCompatibleVersionInstalled "version" "1.0.0" "^1.0.0" (data out.2)
    = false
  /\ schema.fields (data out.2) !! "latest_compatible_version"
     = Some (schema.VString "1.0.0").
Proof.
  intros w m out.
  destruct (supressIfLatestCompatibleVersionInstalled_never GoSemver.lib
              Server.client Server.setParentAkasOfMod) as (Hnever & Hinstall & _).
  split; [apply Hnever|].
  destruct (Hinstall m out.2) as (target & m1 & Hresolved & Hstored).
  - vm_compute. reflexivity.
  - rewrite Hstored. f_equal. f_equal.
    assert ((getLatestCompatibleVersion GoSemver.lib Server.client m).1
            = Returns (Ok "1.0.0")) as Hrun by (vm_compute; reflexivity).
    rewrite Hresolved in Hrun. simpl in Hrun. congruence.
Defined.

(** * Further properties of the provider code *)

(** Unfolds the operations a provider function is written with. *)
Ltac go_unfold :=
  unfold bind, ret, call, panic, dId, dGet, dSet, dSetId, getData, setData,
    Sleep, schema.Id.

(** ** Version resolution, in general *)
Section ResolutionInGeneral.

Context {W : Type}.
Variable sv : semver.Lib.
Variable client : apiclient.Client W.

Lemma wellFormed_cons (entry : apiclient.ModVersions)
    (rest : list apiclient.ModVersions) :
  wellFormed sv (entry :: rest) -> wellFormed sv rest.
Proof. intros Hall e He. apply Hall. by right. Qed.

(** X1: the loop returns a version exactly when every available entry
    has a well-formed version, and the version is then the string of
    the last entry, in list order, that is available and satisfies the
    constraint (the initial value when there is none). *)
Theorem latestCompatibleAmong_Ok (c : semver.Constraints sv)
    (modVersions : list apiclient.ModVersions) (initial v : string) :
  latestCompatibleAmong sv c modVersions initial = Ok v
  <-> wellFormed sv modVersions
      /\ v = List.last
               (map apiclient.Version (List.filter (taken sv c) modVersions))
               initial.
Proof.
  split.
  - revert initial. induction modVersions as [|entry rest IH];
      intros initial Hrun; simpl in Hrun.
    + split; [intros e He; inversion He | simpl; congruence].
    + unfold taken at 1. simpl.
      destruct (String.eqb_spec (apiclient.Status entry) "available")
        as [Hav|Hna]; simpl.
      * destruct (semver.NewVersion sv (apiclient.Version entry))
          as [ve|err] eqn:Hparse; [|discriminate].
        destruct (semver.Check sv c ve).
        -- destruct (IH _ Hrun) as [Hrest ->]. split.
           ++ intros e He Hav'. inversion He; subst; [by rewrite Hparse|].
              by apply Hrest.
           ++ simpl map. by rewrite last_cons.
        -- destruct (IH _ Hrun) as [Hrest ->]. split; [|reflexivity].
           intros e He Hav'. inversion He; subst; [by rewrite Hparse|].
           by apply Hrest.
      * destruct (IH _ Hrun) as [Hrest ->]. split; [|reflexivity].
        intros e He Hav'. inversion He; subst; [contradiction|].
        by apply Hrest.
  - intros [Hall ->]. by apply latestCompatibleAmong_last.
Qed.

(** X2: the loop fails exactly when some available entry has a
    malformed version; the error is that of the first such entry.
    Entries that are not available are never parsed, and the constraint
    plays no part. *)
Theorem latestCompatibleAmong_Err (c : semver.Constraints sv)
    (modVersions : list apiclient.ModVersions) (initial : string)
    (err : error) :
  latestCompatibleAmong sv c modVersions initial = Err err
  <-> exists (before : list apiclient.ModVersions)
             (entry : apiclient.ModVersions)
             (after : list apiclient.ModVersions),
        modVersions = (before ++ entry :: after)%list
        /\ wellFormed sv before
        /\ apiclient.Status entry = "available"
        /\ semver.NewVersion sv (apiclient.Version entry) = Err err.
Proof.
  revert initial. induction modVersions as [|e rest IH]; intros initial; simpl.
  - split; [discriminate|].
    intros (before & entry & after & Heq & _). by destruct before.
  - destruct (String.eqb_spec (apiclient.Status e) "available") as [Hav|Hna].
    + destruct (semver.NewVersion sv (apiclient.Version e)) as [ve|err0] eqn:Hparse.
      * assert (forall init,
                  latestCompatibleAmong sv c rest init = Err err
                  <-> exists before entry after,
                        e :: rest = (before ++ entry :: after)%list
                        /\ wellFormed sv before
                        /\ apiclient.Status entry = "available"
                        /\ semver.NewVersion sv (apiclient.Version entry)
                           = Err err) as Hstep.
        { intros init. rewrite IH. split.
          - intros (before & entry & after & -> & Hwf & Hst & Hbad).
            exists (e :: before), entry, after. split; [reflexivity|].
            split; [|done].
            intros x Hx Hxa. inversion Hx; subst; [by rewrite Hparse|].
            by apply Hwf.
          - intros (before & entry & after & Heq & Hwf & Hst & Hbad).
            destruct before as [|b before]; simpl in Heq.
            + injection Heq as <- <-. congruence.
            + injection Heq as <- ->.
              exists before, entry, after. split; [reflexivity|].
              split; [by eapply wellFormed_cons|done]. }
        destruct (semver.Check sv c ve); apply Hstep.
      * split.
        -- intros [= <-]. exists [], e, rest. split; [reflexivity|].
           split; [intros x Hx; inversion Hx|done].
        -- intros (before & entry & after & Heq & Hwf & Hst & Hbad).
           destruct before as [|b before]; simpl in Heq.
           ++ injection Heq as <- <-. congruence.
           ++ injection Heq as <- ->.
              pose proof (Hwf e (list_elem_of_here _ _) Hav) as Hok.
              by rewrite Hparse in Hok.
    + rewrite IH. split.
      * intros (before & entry & after & -> & Hwf & Hst & Hbad).
        exists (e :: before), entry, after. split; [reflexivity|].
        split; [|done].
        intros x Hx Hxa. inversion Hx; subst; [contradiction|]. by apply Hwf.
      * intros (before & entry & after & Heq & Hwf & Hst & Hbad).
        destruct before as [|b before]; simpl in Heq.
        -- injection Heq as <- <-. contradiction.
        -- injection Heq as <- ->.
           exists before, entry, after. split; [reflexivity|].
           split; [by eapply wellFormed_cons|done].
Qed.

Lemma taken_inv (c : semver.Constraints sv) (entry : apiclient.ModVersions) :
  taken sv c entry = true ->
  apiclient.Status entry = "available"
  /\ exists v : semver.Version sv,
       semver.NewVersion sv (apiclient.Version entry) = Ok v
       /\ semver.Check sv c v = true.
Proof.
  unfold taken. intros Htaken. apply andb_true_iff in Htaken as [Hav Hcheck].
  split; [by apply String.eqb_eq|].
  destruct (semver.NewVersion sv (apiclient.Version entry)) as [v|];
    [by exists v | discriminate].
Qed.

(** The position of the entry whose version the loop returns: no entry
    after it is taken. *)
Lemma latestCompatibleAmong_position (c : semver.Constraints sv)
    (modVersions : list apiclient.ModVersions) :
  forall initial r : string,
    latestCompatibleAmong sv c modVersions initial = Ok r ->
    (r = initial
     /\ forall e : apiclient.ModVersions, e ∈ modVersions -> taken sv c e = false)
    \/ (exists (j : nat) (chosen : apiclient.ModVersions),
          modVersions !! j = Some chosen
          /\ taken sv c chosen = true
          /\ apiclient.Version chosen = r
          /\ forall (i : nat) (e : apiclient.ModVersions),
               modVersions !! i = Some e -> taken sv c e = true -> (i <= j)%nat).
Proof.
  induction modVersions as [|e0 rest IH]; intros initial r Hrun; simpl in Hrun.
  - left. split; [congruence|]. intros e He. inversion He.
  - destruct (taken sv c e0) eqn:Htaken.
    + destruct (taken_inv _ _ Htaken) as (Hav & v0 & Hparse & Hcheck).
      rewrite Hav in Hrun. simpl in Hrun. rewrite Hparse, Hcheck in Hrun.
      right. destruct (IH _ _ Hrun) as [[-> Hnone] | (j & chosen & Hj & Ht & Hv & Hlast)].
      * exists 0%nat, e0. repeat split; try done.
        intros [|i] e Hi Hte; [lia|]. simpl in Hi.
        rewrite Hnone in Hte; [discriminate|].
        apply list_elem_of_lookup. by exists i.
      * exists (S j), chosen. repeat split; try done.
        intros [|i] e Hi Hte; [lia|]. simpl in Hi.
        specialize (Hlast i e Hi Hte). lia.
    + assert (latestCompatibleAmong sv c rest initial = Ok r) as Hrest.
      { unfold taken in Htaken.
        destruct (String.eqb (apiclient.Status e0) "available"); [|exact Hrun].
        simpl in Htaken.
        destruct (semver.NewVersion sv (apiclient.Version e0)); [|discriminate].
        by rewrite Htaken in Hrun. }
      destruct (IH _ _ Hrest) as [[-> Hnone] | (j & chosen & Hj & Ht & Hv & Hlast)].
      * left. split; [reflexivity|].
        intros e He. inversion He; subst; [exact Htaken | by apply Hnone].
      * right. exists (S j), chosen. repeat split; try done.
        intros [|i] e Hi Hte; simpl in Hi.
        -- injection Hi as <-. congruence.
        -- specialize (Hlast i e Hi Hte). lia.
Qed.

(** X3: on a list whose available entries are in ascending order, the
    version the loop returns is not below the version of any entry that
    is available and satisfies the constraint. *)
Theorem latestCompatibleAmong_ascending (c : semver.Constraints sv)
    (modVersions : list apiclient.ModVersions) (r : string) :
  ascending sv modVersions ->
  latestCompatibleAmong sv c modVersions "" = Ok r ->
  forall (entry : apiclient.ModVersions) (ve : semver.Version sv),
    entry ∈ modVersions ->
    taken sv c entry = true ->
    semver.NewVersion sv (apiclient.Version entry) = Ok ve ->
    exists vr : semver.Version sv,
      semver.NewVersion sv r = Ok vr
      /\ semver.Check sv c vr = true
      /\ semver.Compare sv ve vr <> Gt.
Proof.
  intros Hasc Hrun entry ve Hin Htaken Hparse.
  destruct (latestCompatibleAmong_position _ _ _ _ Hrun)
    as [[_ Hnone] | (j & chosen & Hj & Ht & <- & Hlast)].
  - rewrite Hnone in Htaken; [discriminate | exact Hin].
  - apply list_elem_of_lookup in Hin as [i Hi].
    destruct (taken_inv _ _ Ht) as (Hav & vr & Hvr & Hcheck).
    destruct (taken_inv _ _ Htaken) as (Hav' & _).
    exists vr. split; [exact Hvr|]. split; [exact Hcheck|].
    exact (Hasc i j entry chosen ve vr (Hlast i entry Hi Htaken)
             Hi Hj Hav' Hav Hparse Hvr).
Qed.

Lemma getLatestCompatibleVersion_data (m : Machine W) :
  data (getLatestCompatibleVersion sv client m).2 = data m.
Proof.
  unfold getLatestCompatibleVersion. go_unfold. simpl.
  destruct (apiclient.GetModVersions client _ _ (remote m)) as [[vs|err] w];
    simpl; [|reflexivity].
  destruct (semver.NewConstraint sv _); reflexivity.
Qed.

(** X4: resolving a version makes one client call, to [GetModVersions],
    never panics and leaves the local state as it was, whatever the
    outcome; an unparseable constraint is reported only after that
    call. *)
Theorem getLatestCompatibleVersion_footprint (m : Machine W) :
  let out := getLatestCompatibleVersion sv client m in
  data out.2 = data m
  /\ events out.2
     = (events m
        ++ [Called "GetModVersions" (schema.GetString "mod" (data m))])%list
  /\ exists r : result string, out.1 = Returns r.
Proof.
  split; [apply getLatestCompatibleVersion_data|].
  unfold getLatestCompatibleVersion. go_unfold. simpl.
  destruct (apiclient.GetModVersions client _ _ (remote m)) as [[vs|err] w];
    simpl; [|eauto].
  destruct (semver.NewConstraint sv _); simpl; eauto.
Qed.

End ResolutionInGeneral.

Lemma latestCompatibleAmong_ascending_witness :
  let published :=
    [ {| apiclient.Status := "available"; apiclient.Version := "1.0.0" |};
      {| apiclient.Status := "available"; apiclient.Version := "1.5.0" |};
      {| apiclient.Status := "available"; apiclient.Version := "2.0.0" |} ] in
  exists vr : GoSemver.version,
    GoSemver.NewVersion "1.5.0" = Ok vr
    /\ GoSemver.Check (GoSemver.Compared GoSemver.OpCaret
                         {| GoSemver.major := 1; GoSemver.minor := 0;
                            GoSemver.patch := 0 |}) vr = true
    /\ GoSemver.Compare {| GoSemver.major := 1; GoSemver.minor := 0;
                           GoSemver.patch := 0 |} vr <> Gt.
Proof.
  intros published.
  apply (latestCompatibleAmong_ascending GoSemver.lib
           (GoSemver.Compared GoSemver.OpCaret
              {| GoSemver.major := 1; GoSemver.minor := 0; GoSemver.patch := 0 |})
           published "1.5.0")
    with (entry := {| apiclient.Status := "available";
                      apiclient.Version := "1.0.0" |}).
  - intros i j e1 e2 v1 v2 Hle H1 H2 _ _ Hv1 Hv2.
    destruct i as [|[|[|i]]]; destruct j as [|[|[|j]]];
      simpl in H1, H2; try discriminate; try lia;
      injection H1 as <-; injection H2 as <-;
      vm_compute in Hv1; vm_compute in Hv2;
      injection Hv1 as <-; injection Hv2 as <-;
      vm_compute; discriminate.
  - vm_compute. reflexivity.
  - apply list_elem_of_here.
  - vm_compute. reflexivity.
  - vm_compute. reflexivity.
Defined.


(** ** The body normaliser, in general *)
Section BodiesInGeneral.

Variable J : json.Lib.

Lemma suppressIfBodyMatches_true (k old new : string)
    (d : schema.ResourceData) :
  suppressIfBodyMatches J k old new d = true
  <-> old <> "" /\ new <> "" /\ formatBody J old = formatBody J new.
Proof.
  unfold suppressIfBodyMatches.
  destruct (String.eqb_spec old "") as [->|Hold]; simpl.
  - split; [discriminate | intros [Hne _]; contradiction].
  - destruct (String.eqb_spec new "") as [->|Hnew]; simpl.
    + split; [discriminate | intros (_ & Hne & _); contradiction].
    + rewrite String.eqb_eq. tauto.
Qed.

(** X5: on bodies that are not empty, the body predicate is an
    equivalence: it relates every body to itself, is symmetric and is
    transitive. *)
Theorem suppressIfBodyMatches_equivalence (k : string)
    (d : schema.ResourceData) :
  (forall a : string, a <> "" -> suppressIfBodyMatches J k a a d = true)
  /\ (forall a b : string,
        suppressIfBodyMatches J k a b d = suppressIfBodyMatches J k b a d)
  /\ (forall a b c : string,
        suppressIfBodyMatches J k a b d = true ->
        suppressIfBodyMatches J k b c d = true ->
        suppressIfBodyMatches J k a c d = true).
Proof.
  split; [|split].
  - intros a Ha. by apply suppressIfBodyMatches_true.
  - intros a b. unfold suppressIfBodyMatches.
    rewrite (orb_comm (String.eqb a "")).
    destruct (String.eqb b "" || String.eqb a ""); [reflexivity|].
    apply String.eqb_sym.
  - intros a b c Hab Hbc.
    apply suppressIfBodyMatches_true in Hab as (Ha & _ & Hab).
    apply suppressIfBodyMatches_true in Hbc as (_ & Hc & Hbc).
    apply suppressIfBodyMatches_true. split; [done|]. split; [done|congruence].
Qed.

(** X6: two bodies that both fail to decode are compared as they are
    written: the predicate suppresses their diff exactly when they are
    the same text and not empty. *)
Theorem suppressIfBodyMatches_undecodable (k old new : string)
    (d : schema.ResourceData) (e1 e2 : error) :
  json.Unmarshal J old = Err e1 ->
  json.Unmarshal J new = Err e2 ->
  (suppressIfBodyMatches J k old new d = true <-> old <> "" /\ old = new).
Proof.
  intros Hold Hnew. rewrite suppressIfBodyMatches_true.
  unfold formatBody. rewrite Hold, Hnew. split.
  - intros (Ho & _ & Heq). done.
  - intros [Ho <-]. done.
Qed.

(** X7: the property map of a body that decodes has the top-level keys
    of the body and maps each key to itself; for a body that does not
    decode, the decoding error is returned as it is. *)
Theorem propertiesFromBody_identity (body : string) :
  (forall err : error,
     json.Unmarshal J body = Err err -> propertiesFromBody J body = Err err)
  /\ (forall data : gmap string json,
        json.Unmarshal J body = Ok data ->
        exists properties : gmap string string,
          propertiesFromBody J body = Ok properties
          /\ dom properties = dom data
          /\ forall key value : string,
               properties !! key = Some value -> value = key).
Proof.
  unfold propertiesFromBody. split.
  - intros err ->. reflexivity.
  - intros data ->. eexists. split; [reflexivity|]. split.
    + apply set_eq. intros key. rewrite !elem_of_dom.
      rewrite properties_fold_lookup. by rewrite fmap_is_Some.
    + intros key value. rewrite properties_fold_lookup.
      destruct (data !! key); simpl; congruence.
Qed.

(** X8: normalising twice gives what normalising once gives, for every
    body whose normal form decodes to the object the body decodes to
    (and for every body that does not decode). *)
Theorem formatBody_idempotent (x : string) :
  (forall data : gmap string json,
     json.Unmarshal J x = Ok data ->
     json.Unmarshal J (formatBody J x) = Ok data) ->
  formatBody J (formatBody J x) = formatBody J x.
Proof.
  intros Hstable.
  destruct (json.Unmarshal J x) as [data|err] eqn:Hx.
  - specialize (Hstable data eq_refl).
    assert (formatBody J x
            = match bodyFromProperties J data with
              | Err _ => ""
              | Ok body => body
              end) as Honce by (unfold formatBody; by rewrite Hx).
    unfold formatBody at 1. by rewrite Hstable, Honce.
  - assert (formatBody J x = x) as -> by (unfold formatBody; by rewrite Hx).
    unfold formatBody. by rewrite Hx.
Qed.

End BodiesInGeneral.

Lemma suppressIfBodyMatches_undecodable_witness :
  let d := {| schema.id := ""; schema.fields := ∅ |} in
  (suppressIfBodyMatches GoJson.lib "body" "not json" "not json" d = true)
  /\ suppressIfBodyMatches GoJson.lib "body" "not json" "not  json" d = false.
Proof.
  intros d. split.
  - apply (suppressIfBodyMatches_undecodable GoJson.lib "body" "not json"
             "not json" d "invalid character in JSON input"
             "invalid character in JSON input");
      [vm_compute; reflexivity | vm_compute; reflexivity |].
    split; [discriminate | reflexivity].
  - apply not_true_is_false. intros Htrue.
    apply (suppressIfBodyMatches_undecodable GoJson.lib "body" "not json"
             "not  json" d "invalid character in JSON input"
             "invalid character in JSON input") in Htrue as [_ Heq];
      [discriminate | vm_compute; reflexivity | vm_compute; reflexivity].
Defined.

Lemma formatBody_idempotent_witness :
  let x := GoJson.js "{'z': [true, {'b': 'x<y', 'a': -7}], 'a': null}" in
  formatBody GoJson.lib x <> x
  /\ formatBody GoJson.lib (formatBody GoJson.lib x) = formatBody GoJson.lib x.
Proof.
  intros x. split; [vm_compute; discriminate|].
  apply (formatBody_idempotent GoJson.lib x).
  intros data Hdata.
  assert (json.Unmarshal GoJson.lib (formatBody GoJson.lib x)
          = json.Unmarshal GoJson.lib x) as -> by (vm_compute; reflexivity).
  exact Hdata.
Defined.

Lemma propertiesFromBody_identity_witness :
  let body := GoJson.js "{'title': 'Folder', 'count': 3}" in
  exists properties : gmap string string,
    propertiesFromBody GoJson.lib body = Ok properties
    /\ dom properties = dom (<["title" := JString "Folder"]>
                               ({[ "count" := JNumber 3 ]} : gmap string json))
    /\ forall key value : string,
         properties !! key = Some value -> value = key.
Proof.
  intros body.
  destruct (propertiesFromBody_identity GoJson.lib body) as [_ Hdecoded].
  apply Hdecoded. vm_compute. reflexivity.
Defined.

(** ** The installation poll, in general *)
Section PollInGeneral.

Context {W : Type}.
Variable client : apiclient.Client W.

Lemma getInstalledModVersion_data (modId : string) (m : Machine W) :
  data (getInstalledModVersion client modId m).2 = data m.
Proof.
  unfold getInstalledModVersion. go_unfold.
  destruct (apiclient.ReadResource client modId _ (remote m))
    as [[resource|err] w]; simpl; [|reflexivity].
  destruct (apiclient.Data resource !! "version") as [[]|]; reflexivity.
Qed.

Lemma waitForInstallation_loop_data (modId targetVersion : string)
    (sleep : Z) (remaining : nat) :
  forall (retryCount : Z) (m : Machine W),
    data (waitForInstallation_loop client remaining retryCount sleep modId
            targetVersion m).2 = data m.
Proof.
  induction remaining as [|remaining IH]; intros retryCount m; simpl;
    [reflexivity|].
  unfold bind at 1.
  pose proof (getInstalledModVersion_data modId m) as Hdata.
  destruct (getInstalledModVersion client modId m) as [[[v|err]|msg] m1];
    simpl in Hdata; try exact Hdata.
  destruct (String.eqb v targetVersion); [exact Hdata|].
  unfold bind at 1, Sleep at 1. rewrite IH. exact Hdata.
Qed.

(** X9: waiting for an installation never changes the local state: the
    id and the fields are the same after it, whatever it returns. *)
Theorem waitForInstallation_keeps_data (modId targetVersion : string)
    (m : Machine W) :
  data (waitForInstallation client modId targetVersion m).2 = data m.
Proof. apply waitForInstallation_loop_data. Qed.

Lemma waitForInstallation_loop_success (modId targetVersion : string)
    (sleep : Z) (remaining : nat) :
  forall (retryCount : Z) (m m' : Machine W),
    waitForInstallation_loop client remaining retryCount sleep modId
      targetVersion m = (Returns (Ok tt), m') ->
    exists (n : nat) (before : Machine W),
      (n < remaining)%nat
      /\ getInstalledModVersion client modId before
         = (Returns (Ok targetVersion), m')
      /\ events before = (events m ++ pollRounds n modId sleep)%list.
Proof.
  induction remaining as [|remaining IH]; intros retryCount m m' Hrun;
    simpl in Hrun; [discriminate|].
  unfold bind at 1 in Hrun.
  pose proof (getInstalledModVersion_events client modId m) as Hpoll.
  destruct (getInstalledModVersion client modId m) as [[[v|err]|msg] m1] eqn:Hread;
    try discriminate.
  destruct (String.eqb_spec v targetVersion) as [->|Hne].
  - injection Hrun as <-. exists 0%nat, m. split; [lia|]. split; [exact Hread|].
    simpl. by rewrite app_nil_r.
  - unfold bind at 1, Sleep at 1 in Hrun.
    apply IH in Hrun as (n & before & Hlt & Hlast & Hev).
    exists (S n), before. split; [lia|]. split; [exact Hlast|].
    rewrite Hev. simpl in *. rewrite Hpoll. by rewrite <- !app_assoc.
Qed.

(** X10: a wait reports success only when a read of the mod resource
    reported the target version; that read came after fewer than 40
    whole rounds, and the wait returned right after it, without
    sleeping again. *)
Theorem waitForInstallation_success (modId targetVersion : string)
    (m m' : Machine W) :
  waitForInstallation client modId targetVersion m = (Returns (Ok tt), m') ->
  exists (n : nat) (before : Machine W),
    (n < 40)%nat
    /\ getInstalledModVersion client modId before
       = (Returns (Ok targetVersion), m')
    /\ events before = (events m ++ pollRounds n modId (20 * Second))%list
    /\ events m'
       = (events m ++ pollRounds n modId (20 * Second)
          ++ [Called "ReadResource" modId])%list.
Proof.
  intros Hrun. unfold waitForInstallation in Hrun.
  change (Z.to_nat (40 - 0)) with 40%nat in Hrun.
  apply waitForInstallation_loop_success in Hrun
    as (n & before & Hlt & Hlast & Hev).
  exists n, before. split; [exact Hlt|]. split; [exact Hlast|].
  split; [exact Hev|].
  pose proof (getInstalledModVersion_events client modId before) as Hpoll.
  rewrite Hlast in Hpoll. simpl in Hpoll. rewrite Hpoll, Hev.
  by rewrite <- app_assoc.
Qed.

(** X11: a wait whose first read of the mod resource fails returns
    that error after this one call: a failed read is not retried and
    nothing is slept. *)
Theorem waitForInstallation_no_retry_on_error (modId targetVersion : string)
    (err : error) (m : Machine W) (resource_w : W) :
  apiclient.ReadResource client modId
    (Some {[ "version" := "turbot.custom.installedVersion" ]}) (remote m)
  = (Err err, resource_w) ->
  waitForInstallation client modId targetVersion m
  = (Returns (Err err),
     {| data := data m; remote := resource_w;
        events := events m ++ [Called "ReadResource" modId] |}).
Proof.
  intros Hread. apply waitForInstallation_read_error.
  unfold getInstalledModVersion. go_unfold. by rewrite Hread.
Qed.

(** X12: a wait whose first read finds the target version installed
    returns success after this one call, without sleeping; a mod
    resource without a version property counts as version the empty
    string. *)
Theorem waitForInstallation_already_installed (modId targetVersion : string)
    (m : Machine W) (resource : apiclient.Resource) (w' : W) :
  apiclient.ReadResource client modId
    (Some {[ "version" := "turbot.custom.installedVersion" ]}) (remote m)
  = (Ok resource, w') ->
  apiclient.Data resource !! "version" = Some (JString targetVersion)
  \/ (targetVersion = ""
      /\ (apiclient.Data resource !! "version" = None
          \/ apiclient.Data resource !! "version" = Some JNull)) ->
  waitForInstallation client modId targetVersion m
  = (Returns (Ok tt),
     {| data := data m; remote := w';
        events := events m ++ [Called "ReadResource" modId] |}).
Proof.
  intros Hread Hversion. apply waitForInstallation_converged.
  unfold getInstalledModVersion. go_unfold. rewrite Hread.
  destruct Hversion as [-> | [-> [-> | ->]]]; reflexivity.
Qed.

End PollInGeneral.

Lemma waitForInstallation_success_witness :
  exists (n : nat) (before : Machine unit),
    (n < 40)%nat
    /\ getInstalledModVersion (Frozen.client "5.1.0") "mod-1" before
       = (Returns (Ok "5.1.0"),
          (waitForInstallation (Frozen.client "5.1.0") "mod-1" "5.1.0"
             Frozen.start).2)
    /\ events before
       = (events Frozen.start ++ pollRounds n "mod-1" (20 * Second))%list
    /\ events (waitForInstallation (Frozen.client "5.1.0") "mod-1" "5.1.0"
                 Frozen.start).2
       = (events Frozen.start ++ pollRounds n "mod-1" (20 * Second)
          ++ [Called "ReadResource" "mod-1"])%list.
Proof.
  apply (waitForInstallation_success (Frozen.client "5.1.0") "mod-1" "5.1.0"
           Frozen.start).
  vm_compute. reflexivity.
Defined.

Lemma waitForInstallation_no_retry_on_error_witness :
  waitForInstallation Server.client "mod-9" "1.0.0"
    (Server.start "" [] Server.empty)
  = (Returns (Err Server.notFound),
     {| data := {| schema.id := ""; schema.fields := list_to_map [] |};
        remote := Server.empty;
        events := [Called "ReadResource" "mod-9"] |}).
Proof.
  apply (waitForInstallation_no_retry_on_error Server.client "mod-9" "1.0.0"
           Server.notFound (Server.start "" [] Server.empty) Server.empty).
  vm_compute. reflexivity.
Defined.

Lemma waitForInstallation_already_installed_witness :
  waitForInstallation (Frozen.client "5.1.0") "mod-1" "5.1.0" Frozen.start
  = (Returns (Ok tt),
     {| data := data Frozen.start; remote := tt;
        events := [Called "ReadResource" "mod-1"] |}).
Proof.
  apply (waitForInstallation_already_installed (Frozen.client "5.1.0")
           "mod-1" "5.1.0" Frozen.start
           (Server.resource "mod-1" "" None {[ "version" := JString "5.1.0" ]})
           tt).
  - reflexivity.
  - left. vm_compute. reflexivity.
Defined.

(** ** Reads, in general *)
Section ReadsInGeneral.

Context {W : Type}.
Variable J : json.Lib.
Variable sv : semver.Lib.
Variable client : apiclient.Client W.
Variable setParentAkasOfMod : Go W (result unit).

(** With the alias slice [akas] stored in [parent_akas], the parent
    predicate suppresses exactly the new values that are among the
    aliases. *)
Lemma stored_akas_suppress (d : schema.ResourceData)
    (akas : option (list string)) :
  schema.fields d !! "parent_akas" = Some (schema.ofSlice akas) ->
  forall k old new : string,
    supressIfParentAkaMatches k old new d = true <-> new ∈ default [] akas.
Proof.
  intros Hstored k old new.
  unfold supressIfParentAkaMatches, schema.GetOk. rewrite Hstored.
  unfold schema.ofSlice, schema.isZero.
  case_bool_decide as Hnil; simpl.
  - rewrite Hnil. split; [discriminate | intros Hin; inversion Hin].
  - apply akaMatches_elem_of.
Qed.

(** X13: once [setParentAkas] has loaded the parent, the parent
    predicate suppresses a new parent value exactly when it is one of
    the aliases the parent carries; when the parent cannot be loaded,
    the error is returned and the local state is left as it was. *)
Theorem setParentAkas_then_predicate (parentId : string) (m : Machine W) :
  (forall (parent : apiclient.Resource) (w' : W),
     apiclient.ReadResource client parentId None (remote m) = (Ok parent, w') ->
     forall k old new : string,
       supressIfParentAkaMatches k old new
         (data (setParentAkas client parentId m).2) = true
       <-> new ∈ default [] (apiclient.Akas (apiclient.Turbot parent)))
  /\ (forall (err : error) (w' : W),
        apiclient.ReadResource client parentId None (remote m) = (Err err, w') ->
        (setParentAkas client parentId m).1 = Returns (Err err)
        /\ data (setParentAkas client parentId m).2 = data m).
Proof.
  split.
  - intros parent w' Hread k old new.
    rewrite (setParentAkas_stores_akas client parentId m parent w' Hread).
    apply stored_akas_suppress. simpl. apply lookup_insert_eq.
  - intros err w' Hread. unfold setParentAkas. go_unfold.
    rewrite Hread. simpl. done.
Qed.

(** X14: a resource whose stored body does not decode cannot be read or
    imported: both fail before any client call, with the decoding error
    behind a fixed prefix, and change nothing.  An import starts from a
    state without a body, so it fails whenever the empty text does not
    decode. *)
Theorem resourceTurbotResourceRead_undecodable_body (m : Machine W)
    (err : error) :
  json.Unmarshal J (schema.GetString "body" (data m)) = Err err ->
  resourceTurbotResourceRead J client m
  = (Returns (Err ("error retrieving properties from resource body: " ++ err)), m)
  /\ resourceTurbotResourceImport J client m
     = (Returns (Err ("error retrieving properties from resource body: " ++ err)), m).
Proof.
  intros Hbody.
  assert (resourceTurbotResourceRead J client m
          = (Returns (Err ("error retrieving properties from resource body: "
                             ++ err)), m)) as Hread.
  { unfold resourceTurbotResourceRead, propertiesFromBody. go_unfold.
    simpl. by rewrite Hbody. }
  split; [exact Hread|].
  unfold resourceTurbotResourceImport, bind. by rewrite Hread.
Qed.

(** X15: a resource read that succeeds keeps the id, stores the
    encoding of the returned properties in [body], the parent's id in
    [parent] and the parent's aliases in [parent_akas], leaves every
    other field alone, and has read the resource and then its parent. *)
Theorem resourceTurbotResourceRead_success (m : Machine W)
    (properties : gmap string string) (resource parent : apiclient.Resource)
    (body : string) (w1 w2 : W) :
  let id := schema.id (data m) in
  let parentId := apiclient.ParentId (apiclient.Turbot resource) in
  propertiesFromBody J (schema.GetString "body" (data m)) = Ok properties ->
  apiclient.ReadResource client id (Some properties) (remote m)
    = (Ok resource, w1) ->
  bodyFromProperties J (apiclient.Data resource) = Ok body ->
  apiclient.ReadResource client parentId None w1 = (Ok parent, w2) ->
  let out := resourceTurbotResourceRead J client m in
  out.1 = Returns (Ok tt)
  /\ schema.id (data out.2) = id
  /\ schema.fields (data out.2) !! "body" = Some (schema.VString body)
  /\ schema.fields (data out.2) !! "parent" = Some (schema.VString parentId)
  /\ schema.fields (data out.2) !! "parent_akas"
     = Some (schema.ofSlice (apiclient.Akas (apiclient.Turbot parent)))
  /\ (forall key : string,
        key <> "body" -> key <> "parent" -> key <> "parent_akas" ->
        schema.fields (data out.2) !! key = schema.fields (data m) !! key)
  /\ remote out.2 = w2
  /\ events out.2
     = (events m ++ [Called "ReadResource" id; Called "ReadResource" parentId])%list.
Proof.
  intros id parentId Hprops Hread Hbody Hparent out. subst out.
  unfold resourceTurbotResourceRead. go_unfold. simpl.
  rewrite Hprops. fold id. rewrite Hread. simpl. rewrite Hbody.
  unfold setParentAkas. go_unfold. simpl. fold parentId. rewrite Hparent. simpl.
  repeat split.
  - by rewrite lookup_insert_eq.
  - rewrite lookup_insert_ne by done. by rewrite lookup_insert_eq.
  - rewrite !lookup_insert_ne by done. by rewrite lookup_insert_eq.
  - intros key Hb Hp Ha. by rewrite !lookup_insert_ne.
  - by rewrite <- app_assoc.
Qed.


(** X17: the control data source read makes exactly one client call in
    every outcome; when no uri is declared, that call is [ReadControl]
    with the explicit id as its selector. *)
Theorem dataSourceTurbotControlRead_one_call (m : Machine W) :
  let out := dataSourceTurbotControlRead client m in
  (exists selector : string,
     events out.2 = (events m ++ [Called "ReadControl" selector])%list)
  /\ (schema.GetString "uri" (data m) = "" ->
      events out.2
      = (events m
         ++ [Called "ReadControl" ("id: " ++ schema.GetString "id" (data m))])%list).
Proof.
  unfold dataSourceTurbotControlRead. go_unfold. simpl. split.
  - match goal with
    | |- context [apiclient.ReadControl client ?s _] => exists s
    end.
    destruct (apiclient.ReadControl client _ (remote m)) as [[control|err] w];
      simpl; [reflexivity|].
    destruct (apiclient.NotFoundError client err); reflexivity.
  - intros Huri. rewrite Huri. simpl.
    destruct (apiclient.ReadControl client _ (remote m)) as [[control|err] w];
      simpl; [reflexivity|].
    destruct (apiclient.NotFoundError client err); reflexivity.
Qed.

(** X18: a control read by explicit id that succeeds takes the id from
    the entry id of the returned turbot map, and the empty id when the
    map has no such entry; it overwrites [uri] and [resource] with the
    control's type uri and resource id and stores the state, reason,
    details and turbot map. *)
Theorem dataSourceTurbotControlRead_success (m : Machine W)
    (control : apiclient.Control) (w' : W) :
  let turbot := apiclient.ControlTurbot control in
  schema.GetString "uri" (data m) = "" ->
  apiclient.ReadControl client ("id: " ++ schema.GetString "id" (data m))
    (remote m) = (Ok control, w') ->
  let out := dataSourceTurbotControlRead client m in
  out.1 = Returns (Ok tt)
  /\ schema.id (data out.2) = default "" (turbot !! "id")
  /\ schema.fields (data out.2) !! "uri"
     = Some (schema.VString (apiclient.TypeUri control))
  /\ schema.fields (data out.2) !! "resource"
     = Some (schema.VString (default "" (turbot !! "resourceId")))
  /\ schema.fields (data out.2) !! "state"
     = Some (schema.VString (apiclient.State control))
  /\ schema.fields (data out.2) !! "reason"
     = Some (schema.VString (apiclient.Reason control))
  /\ schema.fields (data out.2) !! "details"
     = Some (schema.VString (apiclient.Details control))
  /\ schema.fields (data out.2) !! "turbot" = Some (schema.VMap turbot).
Proof.
  intros turbot Huri Hread out. subst out.
  unfold dataSourceTurbotControlRead. go_unfold. simpl.
  rewrite Huri. simpl. rewrite Hread. simpl. fold turbot.
  repeat split;
    repeat (first [ by rewrite lookup_insert_eq
                  | rewrite lookup_insert_ne by done ]).
Qed.

(** X19: a folder read that succeeds keeps the id, stores the folder's
    parent, title and description, and leaves every field other than
    these and [parent_akas] alone; afterwards the parent predicate
    suppresses exactly the new parent values that are among the aliases
    returned for the folder's parent. *)
Theorem resourceTurbotFolderRead_success (m : Machine W)
    (folder : apiclient.Folder) (parentAkas : option (list string))
    (w1 w2 : W) :
  apiclient.ReadFolder client (schema.id (data m)) (remote m)
    = (Ok folder, w1) ->
  apiclient.GetResourceAkas client
    (apiclient.ParentId (apiclient.FolderTurbot folder)) w1
    = (Ok parentAkas, w2) ->
  let out := resourceTurbotFolderRead client m in
  out.1 = Returns (Ok tt)
  /\ schema.id (data out.2) = schema.id (data m)
  /\ schema.fields (data out.2) !! "parent"
     = Some (schema.VString (apiclient.FolderParent folder))
  /\ schema.fields (data out.2) !! "title"
     = Some (schema.VString (apiclient.Title folder))
  /\ schema.fields (data out.2) !! "description"
     = Some (schema.VString (apiclient.Description folder))
  /\ (forall key : string,
        key <> "parent_akas" -> key <> "parent" -> key <> "title" ->
        key <> "description" ->
        schema.fields (data out.2) !! key = schema.fields (data m) !! key)
  /\ (forall k old new : string,
        supressIfParentAkaMatches k old new (data out.2) = true
        <-> new ∈ default [] parentAkas).
Proof.
  intros Hread Hakas out. subst out.
  unfold resourceTurbotFolderRead. go_unfold. simpl.
  rewrite Hread. simpl. rewrite Hakas. simpl.
  split; [reflexivity|]. split; [reflexivity|].
  split; [rewrite !lookup_insert_ne by done; by rewrite lookup_insert_eq|].
  split; [rewrite !lookup_insert_ne by done; by rewrite lookup_insert_eq|].
  split; [by rewrite lookup_insert_eq|]. split.
  - intros key Ha Hp Ht Hd. by rewrite !lookup_insert_ne.
  - apply stored_akas_suppress. simpl.
    rewrite !lookup_insert_ne by done. by rewrite lookup_insert_eq.
Qed.

(** X20: a mod read that succeeds overwrites the declared parent, org,
    mod and version with what the remote mod reports, so that [version]
    then holds the installed version and not the declared constraint;
    the id is not touched. *)
Theorem resourceTurbotModRead_success (m m1 m2 : Machine W)
    (installed : apiclient.Mod) (targetVersion : string) (w1 : W) :
  let id := schema.id (data m) in
  apiclient.ReadMod client id (remote m) = (Ok installed, w1) ->
  getLatestCompatibleVersion sv client
    {| data := data m; remote := w1;
       events := events m ++ [Called "ReadMod" id] |}
    = (Returns (Ok targetVersion), m1) ->
  setParentAkasOfMod m1 = (Returns (Ok tt), m2) ->
  let out := resourceTurbotModRead sv client setParentAkasOfMod m in
  out.1 = Returns (Ok tt)
  /\ schema.id (data out.2) = schema.id (data m2)
  /\ schema.fields (data out.2) !! "parent"
     = Some (schema.VString (apiclient.Parent installed))
  /\ schema.fields (data out.2) !! "org"
     = Some (schema.VString (apiclient.Org installed))
  /\ schema.fields (data out.2) !! "mod"
     = Some (schema.VString (apiclient.ModName installed))
  /\ schema.fields (data out.2) !! "version"
     = Some (schema.VString (apiclient.ModVersion installed))
  /\ remote out.2 = remote m2
  /\ events out.2 = events m2.
Proof.
  intros id Hread Hresolve Hakas out. subst out.
  unfold resourceTurbotModRead. go_unfold. simpl. fold id.
  rewrite Hread. simpl. rewrite Hresolve. rewrite Hakas. simpl.
  repeat split; try reflexivity;
    repeat (first [ by rewrite lookup_insert_eq
                  | rewrite lookup_insert_ne by done ]).
Qed.

End ReadsInGeneral.

(** ** Create, update, delete and exists, in general *)
Section WritesInGeneral.

Context {W : Type}.
Variable J : json.Lib.
Variable sv : semver.Lib.
Variable client : apiclient.Client W.
Variable writes : lifecycle.Client W.
Variable ToLowerCamel : string -> string.
Variable setParentAkasOfMod : Go W (result unit).

(** X21: a resource create whose remote create fails returns the error
    and changes nothing locally.  When the remote create succeeds and
    loading the parent then fails, the create returns that error too and
    the new id is not assigned: the local state is as it was, although
    the resource now exists remotely. *)
Theorem resourceTurbotResourceCreate_failure (m : Machine W) (err : error) :
  let parent := schema.GetString "parent" (data m) in
  let resourceType := schema.GetString "type" (data m) in
  let body := schema.GetString "body" (data m) in
  (forall w1 : W,
     lifecycle.CreateResource writes resourceType parent body (remote m)
       = (Err err, w1) ->
     resourceTurbotResourceCreate J client writes m
     = (Returns (Err err),
        {| data := data m; remote := w1;
           events := events m ++ [Called "CreateResource" parent] |}))
  /\ (forall (turbotMetadata : apiclient.TurbotMetadata) (w1 w2 : W),
        lifecycle.CreateResource writes resourceType parent body (remote m)
          = (Ok turbotMetadata, w1) ->
        apiclient.ReadResource client (apiclient.ParentId turbotMetadata) None w1
          = (Err err, w2) ->
        resourceTurbotResourceCreate J client writes m
        = (Returns (Err err),
           {| data := data m; remote := w2;
              events :=
                events m
                ++ [Called "CreateResource" parent;
                    Called "ReadResource" (apiclient.ParentId turbotMetadata)] |})).
Proof.
  intros parent resourceType body. split.
  - intros w1 Hcreate. unfold resourceTurbotResourceCreate. go_unfold. simpl.
    fold parent resourceType body. by rewrite Hcreate.
  - intros md w1 w2 Hcreate Hparent.
    unfold resourceTurbotResourceCreate, setParentAkas. go_unfold. simpl.
    fold parent resourceType body. rewrite Hcreate. simpl. rewrite Hparent.
    simpl. by rewrite <- app_assoc.
Qed.

(** X22: a resource create that succeeds assigns the returned id and
    stores the normal form of the declared body and the parent's
    aliases.  The body predicate then finds no diff between the stored
    and the declared body, provided the declared body and its normal
    form are not empty and normalising the normal form changes nothing. *)
Theorem resourceTurbotResourceCreate_success (m : Machine W)
    (turbotMetadata : apiclient.TurbotMetadata) (parent : apiclient.Resource)
    (w1 w2 : W) :
  let body := schema.GetString "body" (data m) in
  lifecycle.CreateResource writes (schema.GetString "type" (data m))
    (schema.GetString "parent" (data m)) body (remote m)
    = (Ok turbotMetadata, w1) ->
  apiclient.ReadResource client (apiclient.ParentId turbotMetadata) None w1
    = (Ok parent, w2) ->
  let out := resourceTurbotResourceCreate J client writes m in
  out.1 = Returns (Ok tt)
  /\ schema.id (data out.2) = apiclient.Id turbotMetadata
  /\ schema.fields (data out.2) !! "body"
     = Some (schema.VString (formatBody J body))
  /\ schema.fields (data out.2) !! "parent_akas"
     = Some (schema.ofSlice (apiclient.Akas (apiclient.Turbot parent)))
  /\ (body <> "" ->
      formatBody J body <> "" ->
      formatBody J (formatBody J body) = formatBody J body ->
      suppressIfBodyMatches J "body"
        (schema.GetString "body" (data out.2)) body (data out.2) = true).
Proof.
  intros body Hcreate Hparent out. subst out.
  unfold resourceTurbotResourceCreate, setParentAkas. go_unfold. simpl.
  fold body. rewrite Hcreate. simpl. rewrite Hparent. simpl.
  split; [reflexivity|]. split; [reflexivity|].
  split; [by rewrite lookup_insert_eq|].
  split; [rewrite lookup_insert_ne by done; by rewrite lookup_insert_eq|].
  intros Hbody Hnormal Hidem. unfold schema.GetString. simpl.
  rewrite lookup_insert_eq. apply suppressIfBodyMatches_true. done.
Qed.

(** X23: an update of a resource or of a folder never changes the id,
    and the only field it may change is [parent_akas]; in particular a
    resource update leaves the stored body as it was. *)
Theorem update_keeps_id_and_fields (m : Machine W) :
  let kept (out : completion (result unit) * Machine W) : Prop :=
    schema.id (data out.2) = schema.id (data m)
    /\ forall key : string,
         key <> "parent_akas" ->
         schema.fields (data out.2) !! key = schema.fields (data m) !! key in
  kept (resourceTurbotResourceUpdate client writes m)
  /\ kept (resourceTurbotFolderUpdate client writes ToLowerCamel m).
Proof.
  intros kept. subst kept. simpl. split.
  - unfold resourceTurbotResourceUpdate, setParentAkas. go_unfold. simpl.
    destruct (lifecycle.UpdateResource writes _ _ _ _ (remote m))
      as [[md|err] w1]; simpl; [|done].
    destruct (apiclient.ReadResource client _ None w1) as [[parent|err] w2];
      simpl; [|done].
    split; [reflexivity|]. intros key Hkey. by rewrite lookup_insert_ne.
  - unfold resourceTurbotFolderUpdate. go_unfold. simpl.
    destruct (lifecycle.UpdateFolder writes _ _ _ (remote m))
      as [[md|err] w1]; simpl; [|done].
    destruct (apiclient.GetResourceAkas client _ w1) as [[akas|err] w2];
      simpl; [|done].
    split; [reflexivity|]. intros key Hkey. by rewrite lookup_insert_ne.
Qed.

(** X24: deleting a resource or a folder and uninstalling a mod make
    one client call and leave the fields alone; the id is cleared when
    the remote call succeeds, and when it fails the id is kept and the
    error returned. *)
Theorem delete_clears_id_on_success (m : Machine W) :
  let id := schema.id (data m) in
  let ended (call_result : result unit * W) (out : completion (result unit) * Machine W)
            (method : string) : Prop :=
    out.1 = Returns call_result.1
    /\ remote out.2 = call_result.2
    /\ events out.2 = (events m ++ [Called method id])%list
    /\ schema.fields (data out.2) = schema.fields (data m)
    /\ schema.id (data out.2)
       = (if isOk call_result.1 then "" else id) in
  ended (lifecycle.DeleteResource writes id (remote m))
    (resourceTurbotResourceDelete writes m) "DeleteResource"
  /\ ended (lifecycle.DeleteResource writes id (remote m))
       (resourceTurbotFolderDelete writes m) "DeleteResource"
  /\ ended (lifecycle.UninstallMod writes id (remote m))
       (resourceTurbotModUninstall writes m) "UninstallMod".
Proof.
  intros id ended. subst ended. simpl.
  unfold resourceTurbotResourceDelete, resourceTurbotFolderDelete,
    resourceTurbotModUninstall. go_unfold. simpl. fold id.
  destruct (lifecycle.DeleteResource writes id (remote m)) as [[[]|err] w1];
    destruct (lifecycle.UninstallMod writes id (remote m)) as [[[]|err'] w2];
    simpl; done.
Qed.

(** X25: the existence check of a mod makes one [ReadMod] call and
    never changes the local state.  It answers true when the read
    succeeds and false, without error, when the read fails with a
    not-found error; any other error is returned. *)
Theorem resourceTurbotModExists_spec (m : Machine W) :
  let id := schema.id (data m) in
  let out := resourceTurbotModExists client m in
  data out.2 = data m
  /\ events out.2 = (events m ++ [Called "ReadMod" id])%list
  /\ out.1
     = Returns
         match (apiclient.ReadMod client id (remote m)).1 with
         | Ok _ => Ok true
         | Err err =>
             if apiclient.NotFoundError client err then Ok false else Err err
         end.
Proof.
  intros id. unfold resourceTurbotModExists. go_unfold. simpl. fold id.
  destruct (apiclient.ReadMod client id (remote m)) as [[mod_|err] w1];
    simpl; [done|].
  destruct (apiclient.NotFoundError client err); done.
Qed.

(** The value a property contributes to the map: its value when it is
    set to something other than the zero value. *)
Lemma mapFromResourceData_loop_lookup (d : schema.ResourceData)
    (properties : list string) :
  NoDup (ToLowerCamel <$> properties) ->
  forall acc : gmap string schema.value,
    (forall property : string,
       property ∈ properties ->
       mapFromResourceData_loop ToLowerCamel d properties acc
         !! ToLowerCamel property
       = match schema.GetOk property d with
         | (Some value, true) => Some value
         | _ => acc !! ToLowerCamel property
         end)
    /\ (forall key : string,
          key ∉ (ToLowerCamel <$> properties) ->
          mapFromResourceData_loop ToLowerCamel d properties acc !! key
          = acc !! key).
Proof.
  induction properties as [|p rest IH]; intros Hnodup acc.
  - split; [intros property Hin; inversion Hin | reflexivity].
  - rewrite fmap_cons in Hnodup. apply NoDup_cons in Hnodup as [Hfresh Hnodup].
    set (acc' := match schema.GetOk p d with
                 | (Some value, true) => <[ToLowerCamel p := value]> acc
                 | _ => acc
                 end).
    assert (mapFromResourceData_loop ToLowerCamel d (p :: rest) acc
            = mapFromResourceData_loop ToLowerCamel d rest acc') as ->.
    { subst acc'. simpl. by destruct (schema.GetOk p d) as [[v|] []]. }
    destruct (IH Hnodup acc') as [IHin IHout]. split.
    + intros property Hin. apply elem_of_cons in Hin as [-> | Hrest].
      * rewrite IHout by exact Hfresh. subst acc'.
        destruct (schema.GetOk p d) as [[v|] []]; try reflexivity.
        apply lookup_insert_eq.
      * rewrite IHin by exact Hrest.
        destruct (schema.GetOk property d) as [[v|] []]; try reflexivity;
          subst acc'; destruct (schema.GetOk p d) as [[v'|] []];
          try reflexivity; apply lookup_insert_ne; intros Heq; apply Hfresh;
          rewrite Heq; apply list_elem_of_fmap; by exists property.
    + intros key Hkey. rewrite fmap_cons in Hkey.
      apply not_elem_of_cons in Hkey as [Hne Hkey].
      rewrite IHout by exact Hkey. subst acc'.
      destruct (schema.GetOk p d) as [[v|] []]; try reflexivity.
      by apply lookup_insert_ne.
Qed.

(** X26: when the listed properties have distinct lower-camel-case
    names, the map built from the local state holds, under each such
    name, the value of the property if the property is set to something
    other than its zero value, and nothing if it is unset, empty or
    zero; it holds nothing under any other name. *)
Theorem mapFromResourceData_spec (d : schema.ResourceData)
    (properties : list string) :
  NoDup (ToLowerCamel <$> properties) ->
  (forall property : string,
     property ∈ properties ->
     mapFromResourceData ToLowerCamel d properties !! ToLowerCamel property
     = match schema.fields d !! property with
       | Some value => if schema.isZero value then None else Some value
       | None => None
       end)
  /\ (forall key : string,
        key ∉ (ToLowerCamel <$> properties) ->
        mapFromResourceData ToLowerCamel d properties !! key = None).
Proof.
  intros Hnodup. unfold mapFromResourceData.
  destruct (mapFromResourceData_loop_lookup d properties Hnodup ∅)
    as [Hin Hout].
  split.
  - intros property Hp. rewrite Hin by exact Hp.
    unfold schema.GetOk. rewrite lookup_empty.
    destruct (schema.fields d !! property) as [value|]; [|reflexivity].
    by destruct (schema.isZero value).
  - intros key Hkey. rewrite Hout by exact Hkey. apply lookup_empty.
Qed.

(** X27: a folder create that succeeds assigns the returned id, leaves
    every field but [parent_akas] alone, and afterwards the parent
    predicate suppresses exactly the new parent values that are among
    the aliases returned for the parent; the properties sent are those
    of [mapFromResourceData] for the title and the description. *)
Theorem resourceTurbotFolderCreate_success (m : Machine W)
    (turbotMetadata : apiclient.TurbotMetadata)
    (parentAkas : option (list string)) (w1 w2 : W) :
  lifecycle.CreateFolder writes (schema.GetString "parent" (data m))
    (mapFromResourceData ToLowerCamel (data m) folderProperties)
    (remote m) = (Ok turbotMetadata, w1) ->
  apiclient.GetResourceAkas client (apiclient.ParentId turbotMetadata) w1
    = (Ok parentAkas, w2) ->
  let out := resourceTurbotFolderCreate client writes ToLowerCamel m in
  out.1 = Returns (Ok tt)
  /\ schema.id (data out.2) = apiclient.Id turbotMetadata
  /\ (forall key : string,
        key <> "parent_akas" ->
        schema.fields (data out.2) !! key = schema.fields (data m) !! key)
  /\ (forall k old new : string,
        supressIfParentAkaMatches k old new (data out.2) = true
        <-> new ∈ default [] parentAkas).
Proof.
  intros Hcreate Hakas out. subst out. unfold folderProperties in Hcreate.
  unfold resourceTurbotFolderCreate, folderProperties. go_unfold. simpl.
  rewrite Hcreate. simpl. rewrite Hakas. simpl.
  split; [reflexivity|]. split; [reflexivity|]. split.
  - intros key Hkey. by rewrite lookup_insert_ne.
  - apply stored_akas_suppress. simpl. apply lookup_insert_eq.
Qed.

(** X28: an install or update of a mod stops at the first step that
    fails: when the version cannot be resolved, the error is returned
    and [InstallMod] is not called; when [InstallMod] fails, the error
    is returned and nothing is polled.  In both cases the id and the
    fields are as they were. *)
Theorem modInstall_stops_at_failure (m : Machine W) (err : error) :
  (forall m1 : Machine W,
     getLatestCompatibleVersion sv client m = (Returns (Err err), m1) ->
     modInstall sv client setParentAkasOfMod m = (Returns (Err err), m1)
     /\ data m1 = data m)
  /\ (forall (targetVersion : string) (m1 : Machine W) (w2 : W),
        getLatestCompatibleVersion sv client m
          = (Returns (Ok targetVersion), m1) ->
        apiclient.InstallMod client (schema.GetString "parent" (data m))
          (schema.GetString "org" (data m)) (schema.GetString "mod" (data m))
          (schema.GetString "version" (data m)) (remote m1) = (Err err, w2) ->
        modInstall sv client setParentAkasOfMod m
        = (Returns (Err err),
           {| data := data m; remote := w2;
              events :=
                events m1
                ++ [Called "InstallMod" (schema.GetString "mod" (data m))] |})).
Proof.
  split.
  - intros m1 Hresolve.
    pose proof (getLatestCompatibleVersion_data sv client m) as Hdata.
    rewrite Hresolve in Hdata.
    split; [|exact Hdata].
    unfold modInstall. unfold bind at 1 2 3 4 5. rewrite !(dGet_run (W:=W)).
    by rewrite Hresolve.
  - intros targetVersion m1 w2 Hresolve Hinstall.
    pose proof (getLatestCompatibleVersion_data sv client m) as Hdata.
    rewrite Hresolve in Hdata. simpl in Hdata.
    unfold modInstall. unfold bind at 1 2 3 4 5. rewrite !(dGet_run (W:=W)).
    rewrite Hresolve. unfold bind at 1. unfold call at 1.
    rewrite Hinstall. simpl. by rewrite Hdata.
Qed.

End WritesInGeneral.

(** ** The general properties on the in-memory server *)

Lemma setParentAkas_then_predicate_witness :
  let m := Server.start "r-1" [] (Store.rooted (Some ["aka:root"; "root"])) in
  let d := data (setParentAkas Server.client "root" m).2 in
  supressIfParentAkaMatches "parent" "root" "aka:root" d = true
  /\ supressIfParentAkaMatches "parent" "root" "aka:other" d = false.
Proof.
  intros m d.
  destruct (setParentAkas_then_predicate Server.client "root" m) as [Hloaded _].
  assert (apiclient.ReadResource Server.client "root" None (remote m)
          = (Ok (Server.resource "root" "" (Some ["aka:root"; "root"]) ∅),
             remote m)) as Hread by (vm_compute; reflexivity).
  split.
  - apply (Hloaded _ _ Hread). apply list_elem_of_here.
  - apply not_true_is_false. intros Htrue.
    apply (Hloaded _ _ Hread) in Htrue. simpl in Htrue.
    apply elem_of_cons in Htrue as [Heq|Htrue]; [discriminate|].
    apply elem_of_cons in Htrue as [Heq|Htrue]; [discriminate|].
    inversion Htrue.
Defined.

Lemma resourceTurbotResourceRead_undecodable_body_witness :
  let m := Server.start "r-1" [] (Store.rooted None) in
  resourceTurbotResourceImport GoJson.lib Server.client m
  = (Returns
       (Err "error retrieving properties from resource body: invalid character in JSON input"),
     m).
Proof.
  intros m.
  apply (resourceTurbotResourceRead_undecodable_body GoJson.lib Server.client m
           "invalid character in JSON input").
  vm_compute. reflexivity.
Defined.

Lemma resourceTurbotResourceRead_success_witness :
  let w := Server.withResources
             [("r-1", Server.resource "r-1" "p-1" None {[ "a" := JNumber 1 ]});
              ("p-1", Server.resource "p-1" "root" (Some ["aka:p"]) ∅)]
             Server.empty in
  let m := Server.start "r-1"
             [("body", schema.VString (GoJson.js "{'a': 0}"));
              ("parent", schema.VString "aka:p")] w in
  let out := resourceTurbotResourceRead GoJson.lib Server.client m in
  out.1 = Returns (Ok tt)
  /\ schema.id (data out.2) = "r-1"
  /\ schema.fields (data out.2) !! "body"
     = Some (schema.VString (GoJson.js "{
 'a': 1
}"))
  /\ schema.fields (data out.2) !! "parent" = Some (schema.VString "p-1")
  /\ schema.fields (data out.2) !! "parent_akas"
     = Some (schema.VList ["aka:p"]).
Proof.
  intros w m out.
  destruct (resourceTurbotResourceRead_success GoJson.lib Server.client m
              {[ "a" := "a" ]}
              (Server.resource "r-1" "p-1" None {[ "a" := JNumber 1 ]})
              (Server.resource "p-1" "root" (Some ["aka:p"]) ∅)
              (GoJson.js "{
 'a': 1
}") w w) as (Hok & Hid & Hbody & Hparent & Hakas & _);
    try (vm_compute; reflexivity).
  repeat split; assumption.
Defined.


Lemma dataSourceTurbotControlRead_success_witness :
  let control :=
    {| apiclient.ControlTurbot := {[ "resourceId" := "res-9" ]};
       apiclient.TypeUri := "tmod:aws#/control";
       apiclient.State := "ok"; apiclient.Reason := ""; apiclient.Details := "" |} in
  let w :=
    {| Server.resources := ∅; Server.folders := ∅; Server.versions := [];
       Server.controls := {[ "id: c-1" := control ]};
       Server.reportedVersion := JNull |} in
  let m := Server.start "c-1" [("id", schema.VString "c-1")] w in
  let out := dataSourceTurbotControlRead Server.client m in
  out.1 = Returns (Ok tt)
  /\ schema.id (data out.2) = ""
  /\ schema.fields (data out.2) !! "resource" = Some (schema.VString "res-9")
  /\ schema.fields (data out.2) !! "state" = Some (schema.VString "ok").
Proof.
  intros control w m out.
  destruct (dataSourceTurbotControlRead_success Server.client m control w)
    as (Hok & Hid & _ & Hresource & Hstate & _);
    try (vm_compute; reflexivity).
  repeat split; assumption.
Defined.

Lemma resourceTurbotResourceCreate_failure_witness :
  let m := Server.start ""
             [("parent", schema.VString "p-gone"); ("type", schema.VString "thing");
              ("body", schema.VString "{}")] Server.empty in
  let out := resourceTurbotResourceCreate GoJson.lib Server.client Store.careless m in
  out.1 = Returns (Err Server.notFound)
  /\ data out.2 = data m
  /\ is_Some (Server.resources (remote out.2) !! "res-0").
Proof.
  intros m out.
  destruct (resourceTurbotResourceCreate_failure GoJson.lib Server.client
              Store.careless m Server.notFound) as [_ Horphan].
  assert (out = (Returns (Err Server.notFound),
                 {| data := data m;
                    remote := (Store.createAnywhere "thing" "p-gone" "{}"
                                 Server.empty).2;
                    events := events m
                              ++ [Called "CreateResource" "p-gone";
                                  Called "ReadResource" "p-gone"] |})) as ->.
  { apply (Horphan (Store.metadata "res-0" "p-gone")
             (Store.createAnywhere "thing" "p-gone" "{}" Server.empty).2);
      vm_compute; reflexivity. }
  split; [reflexivity|]. split; [reflexivity|].
  vm_compute. eexists. reflexivity.
Defined.

Lemma resourceTurbotResourceCreate_success_witness :
  let body := GoJson.js "{'b': 2, 'a': 1}" in
  let m := Server.start ""
             [("parent", schema.VString "root"); ("type", schema.VString "thing");
              ("body", schema.VString body)] (Store.rooted (Some ["aka:root"])) in
  let out := resourceTurbotResourceCreate GoJson.lib Server.client Store.writes m in
  out.1 = Returns (Ok tt)
  /\ schema.id (data out.2) = "res-1"
  /\ schema.GetString "body" (data out.2) <> body
  /\ suppressIfBodyMatches GoJson.lib "body"
       (schema.GetString "body" (data out.2)) body (data out.2) = true.
Proof.
  intros body m out.
  destruct (resourceTurbotResourceCreate_success GoJson.lib Server.client
              Store.writes m (Store.metadata "res-1" "root")
              (Server.resource "root" "" (Some ["aka:root"]) ∅)
              (Store.create "thing" "root" body (remote m)).2
              (Store.create "thing" "root" body (remote m)).2)
    as (Hok & Hid & _ & _ & Hsuppress);
    try (vm_compute; reflexivity).
  split; [exact Hok|]. split; [exact Hid|]. split; [vm_compute; discriminate|].
  apply Hsuppress.
  - vm_compute. discriminate.
  - vm_compute. discriminate.
  - vm_compute. reflexivity.
Defined.

Lemma mapFromResourceData_spec_witness :
  let d := {| schema.id := "";
              schema.fields :=
                list_to_map
                  [("title", schema.VString "Folder");
                   ("description", schema.VString "");
                   ("tags", schema.VMap {[ "env" := "dev" ]})] |} in
  let sent := mapFromResourceData GoStrcase.ToLowerCamel d ["title"; "description"] in
  sent !! "title" = Some (schema.VString "Folder")
  /\ sent !! "description" = None
  /\ sent !! "tags" = None.
Proof.
  intros d sent.
  destruct (mapFromResourceData_spec GoStrcase.ToLowerCamel d
              ["title"; "description"]) as [Hlisted Hother].
  - apply (bool_decide_unpack _). vm_compute. exact I.
  - split; [|split].
    + apply (Hlisted "title"). apply list_elem_of_here.
    + apply (Hlisted "description"). apply list_elem_of_further, list_elem_of_here.
    + apply Hother. apply (bool_decide_unpack _). vm_compute. exact I.
Defined.

Lemma resourceTurbotFolderCreate_success_witness :
  let m := Server.start ""
             [("parent", schema.VString "root"); ("title", schema.VString "F");
              ("description", schema.VString "a folder")]
             (Store.rooted (Some ["aka:root"])) in
  let out := resourceTurbotFolderCreate Server.client Store.writes
               GoStrcase.ToLowerCamel m in
  out.1 = Returns (Ok tt)
  /\ schema.id (data out.2) = "folder-1"
  /\ supressIfParentAkaMatches "parent" "root" "aka:root" (data out.2) = true.
Proof.
  intros m out.
  destruct (resourceTurbotFolderCreate_success Server.client Store.writes
              GoStrcase.ToLowerCamel m (Store.metadata "folder-1" "root")
              (Some ["aka:root"])
              (Store.createFolder "root"
                 (mapFromResourceData GoStrcase.ToLowerCamel (data m)
                    ["title"; "description"]) (remote m)).2
              (Store.createFolder "root"
                 (mapFromResourceData GoStrcase.ToLowerCamel (data m)
                    ["title"; "description"]) (remote m)).2)
    as (Hok & Hid & _ & Hpredicate);
    try (vm_compute; reflexivity).
  split; [exact Hok|]. split; [exact Hid|].
  apply Hpredicate. apply list_elem_of_here.
Defined.

Lemma modInstall_stops_at_failure_witness :
  let m := Server.start ""
             [("parent", schema.VString "root"); ("org", schema.VString "turbot");
              ("mod", schema.VString "aws"); ("version", schema.VString "latest")]
             (Server.withVersions [("1.0.0", "available")] "" Server.empty) in
  modInstall GoSemver.lib Server.client Server.setParentAkasOfMod m
  = (Returns (Err "improper constraint"),
     {| data := data m; remote := remote m;
        events := [Called "GetModVersions" "aws"] |}).
Proof.
  intros m.
  destruct (modInstall_stops_at_failure GoSemver.lib Server.client
              Server.setParentAkasOfMod m "improper constraint") as [Hresolve _].
  apply Hresolve. vm_compute. reflexivity.
Defined.

Lemma resourceTurbotFolderRead_success_witness :
  let folder :=
    {| apiclient.FolderTurbot := Store.metadata "f-1" "root";
       apiclient.FolderParent := "aka:root";
       apiclient.Title := "F"; apiclient.Description := "a folder" |} in
  let w := Store.withFolderMap {[ "f-1" := folder ]}
             (Store.rooted (Some ["aka:root"])) in
  let m := Server.start "f-1" [("tags", schema.VMap {[ "env" := "dev" ]})] w in
  let out := resourceTurbotFolderRead Server.client m in
  out.1 = Returns (Ok tt)
  /\ schema.fields (data out.2) !! "title" = Some (schema.VString "F")
  /\ schema.fields (data out.2) !! "tags"
     = Some (schema.VMap {[ "env" := "dev" ]})
  /\ supressIfParentAkaMatches "parent" "root" "aka:root" (data out.2) = true.
Proof.
  intros folder w m out.
  destruct (resourceTurbotFolderRead_success Server.client m folder
              (Some ["aka:root"]) w w)
    as (Hok & _ & _ & Htitle & _ & Hother & Hpredicate);
    try (vm_compute; reflexivity).
  split; [exact Hok|]. split; [exact Htitle|]. split.
  - rewrite Hother by discriminate. vm_compute. reflexivity.
  - apply Hpredicate. apply list_elem_of_here.
Defined.

Lemma resourceTurbotModRead_success_witness :
  let installed :=
    {| apiclient.Parent := "root"; apiclient.Org := "turbot";
       apiclient.ModName := "aws"; apiclient.ModVersion := "1.0.0" |} in
  let client := Store.modClient installed in
  let w := Server.withVersions [("1.0.0", "available"); ("1.1.0", "available")]
             "1.0.0" (Store.rooted (Some ["aka:root"])) in
  let m := Server.start "root"
             [("parent", schema.VString "root"); ("org", schema.VString "turbot");
              ("mod", schema.VString "aws"); ("version", schema.VString "^1.0.0")] w in
  let out := resourceTurbotModRead GoSemver.lib client Server.setParentAkasOfMod m in
  out.1 = Returns (Ok tt)
  /\ schema.fields (data out.2) !! "version" = Some (schema.VString "1.0.0")
  /\ schema.fields (data out.2) !! "latest_compatible_version"
     = Some (schema.VString "1.1.0").
Proof.
  intros installed client w m out.
  set (m0 := {| data := data m; remote := w;
                events := events m ++ [Called "ReadMod" "root"] |}).
  set (m1 := (getLatestCompatibleVersion GoSemver.lib client m0).2).
  set (m2 := (Server.setParentAkasOfMod m1).2).
  destruct (resourceTurbotModRead_success GoSemver.lib client
              Server.setParentAkasOfMod m m1 m2 installed "1.1.0" w)
    as (Hok & _ & _ & _ & _ & Hversion & _);
    try (vm_compute; reflexivity).
  split; [exact Hok|]. split; [exact Hversion|].
  vm_compute. reflexivity.
Defined.
